(** * Anti-inflammatory foods dashboard ([app.py]): model and properties

    The dashboard is one Streamlit script over a static table of foods.  This
    file embeds the parts of the script that compute something: the sidebar
    filter, the metric card, the per-region aggregation, the meal-plan
    generator and the daily score, and the way the script allocates and
    updates its dataframes.

    Conventions of the model.
    - A Python [str] is a Rocq [string] holding its UTF-8 bytes.  Splitting and
      joining on ASCII separators, equality and the code-point order are the
      same on the bytes as on the code points.  Case is folded on the ASCII
      letters only.
    - A float is a rational ([Q]); rounding error of the floating-point sums
      and quotients is not modelled.
    - An exception is a value of [exn] returned in place of the result. *)

From Stdlib Require Import Ascii String QArith Qround.
From stdpp Require Import gmap strings list sorting.

Local Open Scope string_scope.

(** ** Python strings *)

Module PyStr.

(** [s.startswith(p)] *)
Definition startswith (p s : string) : bool := String.prefix p s.

Fixpoint drop (n : nat) (s : string) : string :=
  match n, s with
  | O, _ => s
  | S _, EmptyString => EmptyString
  | S n', String _ s' => drop n' s'
  end.

Fixpoint take (n : nat) (s : string) : string :=
  match n, s with
  | O, _ => EmptyString
  | S _, EmptyString => EmptyString
  | S n', String c s' => String c (take n' s')
  end.

(** [s.find(sep)]: offset of the leftmost occurrence of [sep] in [s]. *)
Fixpoint find (sep s : string) : option nat :=
  if startswith sep s then Some O
  else match s with
       | EmptyString => None
       | String _ s' => S <$> find sep s'
       end.

(** [s.split(sep, maxsplit)] for a non-empty [sep] and [maxsplit >= 0]: cut
    at the leftmost occurrence, at most [maxsplit] times. *)
Fixpoint split_n (sep : string) (maxsplit : nat) (s : string) : list string :=
  match maxsplit with
  | O => [s]
  | S k =>
      match find sep s with
      | None => [s]
      | Some i => take i s :: split_n sep k (drop (i + String.length sep) s)
      end
  end.

(** [s.split(sep)]: no bound on the number of cuts.  Each cut consumes at
    least one character of [s], so [length s] cuts are never exceeded. *)
Definition split (sep s : string) : list string :=
  split_n sep (String.length s) s.

(** [sep.join(parts)] *)
Definition join (sep : string) (parts : list string) : string :=
  String.concat sep parts.

Definition is_upper (c : ascii) : bool :=
  let n := nat_of_ascii c in (65 <=? n)%nat && (n <=? 90)%nat.

Definition lower_ascii (c : ascii) : ascii :=
  if is_upper c then ascii_of_nat (nat_of_ascii c + 32) else c.

(** [s.lower()] on the ASCII letters. *)
Fixpoint lower (s : string) : string :=
  match s with
  | EmptyString => EmptyString
  | String c s' => String (lower_ascii c) (lower s')
  end.

(** [sub in s] *)
Definition contains (sub s : string) : bool :=
  match find sub s with Some _ => true | None => false end.

End PyStr.

Arguments PyStr.startswith : simpl never.

(** ** The fragment of [re] reached by the search box

    [Series.str.contains(pat, case=False, na=False)] leaves [regex] at its
    default [True]: each cell is tested with
    [re.compile(pat, re.IGNORECASE).search(cell)].  The model covers the
    patterns built from ordinary characters and the dot; a pattern using any
    other special character is outside the model ([re_compile] gives
    [None]): the script may run on it or raise [re.error], nothing is said
    about it here.  Characters are compared byte by byte and case is folded
    on the ASCII letters, which is what [re] does on ASCII patterns and ASCII
    cells; on other texts ([re] folds the case of every letter, and a dot
    takes a whole character) the model is not to be relied on, and the
    properties of the text search below are stated for ASCII texts. *)

Module Re.

Inductive atom : Type :=
| Lit (c : ascii)   (* an ordinary character *)
| Dot.              (* [.]: any character but a newline *)

Definition pattern := list atom.

(** The characters with a special meaning in a pattern. *)
Definition specials : string := ".^$*+?{}[]\|()".

Definition is_special (c : ascii) : bool :=
  PyStr.contains (String c EmptyString) specials.

Definition dot_char : ascii := "."%char.
Definition newline : ascii := ascii_of_nat 10.

Fixpoint re_compile (pat : string) : option pattern :=
  match pat with
  | EmptyString => Some []
  | String c rest =>
      if Ascii.eqb c dot_char then cons Dot <$> re_compile rest
      else if is_special c then None
      else cons (Lit c) <$> re_compile rest
  end.

Definition atom_matches (ignorecase : bool) (a : atom) (c : ascii) : bool :=
  match a with
  | Lit l =>
      if ignorecase then Ascii.eqb (PyStr.lower_ascii l) (PyStr.lower_ascii c)
      else Ascii.eqb l c
  | Dot => negb (Ascii.eqb c newline)
  end.

(** The pattern matches a prefix of [s]. *)
Fixpoint match_here (ignorecase : bool) (p : pattern) (s : string) : bool :=
  match p, s with
  | [], _ => true
  | _ :: _, EmptyString => false
  | a :: p', String c s' => atom_matches ignorecase a c && match_here ignorecase p' s'
  end.

(** [pattern.search(s) is not None]: a match at some offset of [s]. *)
Fixpoint search (ignorecase : bool) (p : pattern) (s : string) : bool :=
  match_here ignorecase p s ||
  match s with
  | EmptyString => false
  | String _ s' => search ignorecase p s'
  end.

End Re.

(** [Series.str.contains(pat, case=..., na=False)] on one cell. *)
Definition str_contains (pat : string) (case : bool) (cell : string) : option bool :=
  p ← Re.re_compile pat; Some (Re.search (negb case) p cell).

(** ** The dataset *)

(** Modelled from the spec: [food.py], which builds the dataframe [df], is not
    part of the sources at hand.  A row is a FoodItem as the data model
    describes it: four strings and a numeric score, none of them missing. *)
Record FoodItem : Type := mkFood {
  Food : string;
  Category : string;
  Region : string;
  Anti_Inflam : Q;
  Notes : string
}.

(** A dataframe with the five columns of the dataset: its rows, in index
    order. *)
Abbreviation frame := (list FoodItem).

(** [category_icons] *)
Definition category_icons : gmap string string :=
  <["Carbohydrates" := "🍞"]> (
  <["Proteins" := "🍗"]> (
  <["Vegetables" := "🥦"]> (
  <["Fruits" := "🍎"]> (
  <["Nuts & Seeds" := "🥜"]> (
  <["Spices & Herbs" := "🌿"]> ∅))))).

(** [d.get(key, default)] *)
Definition dict_get (d : gmap string string) (key default_value : string) : string :=
  default default_value (d !! key).

(** ** Sidebar filters (lines 56-70) *)

(** [Series.unique()]: the distinct values, in order of first appearance. *)
Fixpoint unique (l : list string) : list string :=
  match l with
  | [] => []
  | x :: l' => x :: filter (λ y, y ≠ x) (unique l')
  end.

(** [sorted(...)] on strings. *)
Definition sorted (l : list string) : list string := merge_sort String.le l.

(** [regions = sorted(df['Region'].dropna().unique())]; no value is missing,
    so [dropna] keeps every row. *)
Definition regions (df : frame) : list string := sorted (unique (Region <$> df)).

(** [categories = sorted(df['Category'].dropna().unique())] *)
Definition categories (df : frame) : list string := sorted (unique (Category <$> df)).

(** [Series.isin(values)] on one cell. *)
Definition isin (values : list string) (cell : string) : bool :=
  bool_decide (cell ∈ values).

(** The boolean mask of lines 66-69 on one row.  [None]: the search text is a
    pattern outside the modelled fragment of [re]. *)
Definition row_mask (selected_regions selected_categories : list string)
    (search_text : string) (r : FoodItem) : option bool :=
  in_food ← str_contains search_text false (Food r);
  in_notes ← str_contains search_text false (Notes r);
  Some (isin selected_regions (Region r) &&
        isin selected_categories (Category r) &&
        (in_food || in_notes)).

(** [df[mask]]: the rows whose mask is true, in order. *)
Fixpoint select (mask : FoodItem → option bool) (df : frame) : option frame :=
  match df with
  | [] => Some []
  | r :: df' =>
      keep ← mask r;
      rest ← select mask df';
      Some (if keep : bool then r :: rest else rest)
  end.

(** [filtered_df] as line 70 leaves it (the [Icon] column comes after). *)
Definition filtered_df (df : frame) (selected_regions selected_categories : list string)
    (search_text : string) : option frame :=
  (* the pattern is compiled once, also over an empty column *)
  _ ← Re.re_compile search_text;
  select (row_mask selected_regions selected_categories search_text) df.

(** The filter as the specification words it: plain substring search, case
    ignored. *)
Definition icontains (query cell : string) : bool :=
  PyStr.contains (PyStr.lower query) (PyStr.lower cell).

Definition spec_keeps (selected_regions selected_categories : list string)
    (query : string) (r : FoodItem) : Prop :=
  Region r ∈ selected_regions ∧
  Category r ∈ selected_categories ∧
  (icontains query (Food r) = true ∨ icontains query (Notes r) = true).

(** ** Metric card (line 89) *)

(** [Series.sum()]; the sum of an empty column is 0. *)
Definition series_sum (col : list Q) : Q := foldr Qplus 0%Q col.

(** [Series.mean()]; [None] stands for NaN, the mean of an empty column. *)
Definition series_mean (col : list Q) : option Q :=
  match col with
  | [] => None
  | _ => Some (series_sum col / inject_Z (Z.of_nat (length col)))%Q
  end.

(** Nearest integer, ties to the even one. *)
Definition round_half_even (x : Q) : Z :=
  let f := Qfloor x in
  match (x - inject_Z f ?= 1 # 2)%Q with
  | Lt => f
  | Gt => (f + 1)%Z
  | Eq => if Z.even f then f else (f + 1)%Z
  end.

(** [round(x, 1)].  On the numpy float of the mean this is
    [rint(x * 10) / 10] in double arithmetic; the model rounds the exact
    rational, so its value can differ from the card in the last digit when
    ten times the mean is close to a half. *)
Definition round1 (x : Q) : Q := (inject_Z (round_half_even (x * 10)) / 10)%Q.

(** [avg_score = round(filtered_df['Anti_Inflam'].mean(),1) if len(filtered_df) else 0] *)
Definition avg_score (lf : frame) : option Q :=
  match length lf with
  | O => Some 0%Q
  | S _ => round1 <$> series_mean (Anti_Inflam <$> lf)
  end.

(** ** Foods per region (lines 109-112) *)

(** [groupby(key)]: one pass over the rows, each row appended to the group of
    its key. *)
Definition group_by (key : FoodItem → string) (lf : frame) : gmap string (list FoodItem) :=
  foldr (λ r groups, partial_alter (λ g, Some (r :: default [] g)) (key r) groups) ∅ lf.

(** A row of [region_df]: the group key, the count under the name [Food], the
    joined notes. *)
Record region_row : Type := mkRegionRow {
  rr_Region : string;
  rr_Food : nat;
  rr_Notes : string
}.

(** [.agg({'Food':'count', 'Notes': lambda x: ', '.join(x)})] on one group. *)
Definition agg_region (group : string * list FoodItem) : region_row :=
  {| rr_Region := group.1;
     rr_Food := length (Food <$> group.2);
     rr_Notes := PyStr.join ", " (Notes <$> group.2) |}.

(** [filtered_df.groupby('Region').agg(...).reset_index()]; the groups come
    in the order of their keys. *)
Definition region_df (lf : frame) : list region_row :=
  agg_region <$>
    merge_sort (λ g1 g2, String.le g1.1 g2.1) (map_to_list (group_by Region lf)).

(** ** Effects: exceptions, the random generator, the clock *)

Inductive exn : Type :=
| IndexError   (* [random.choice] of an empty list, [l[1]] out of range *)
| KeyError     (* a column the frame does not have *)
| NameError    (* a variable not bound yet *)
| PatternError (* a search text outside the modelled patterns *).

Inductive result (A : Type) : Type :=
| Ok (a : A)
| Raise (e : exn).
Arguments Ok {A} a.
Arguments Raise {A} e.

(** A computation over a state [St] that returns or raises. *)
Definition M (St A : Type) : Type := St → result A * St.

Definition ret {St A} (a : A) : M St A := λ s, (Ok a, s).
Definition raise {St A} (e : exn) : M St A := λ s, (Raise e, s).
Definition bind {St A B} (m : M St A) (k : A → M St B) : M St B :=
  λ s, match m s with
       | (Ok a, s') => k a s'
       | (Raise e, s') => (Raise e, s')
       end.

Declare Scope py_scope.
Delimit Scope py_scope with py.
Notation "'let!' x ':=' m 'in' k" := (bind m (λ x, k))
  (at level 10, x name, m at level 100, k at level 200) : py_scope.

(** What the run draws from outside: [rng i] is the i-th raw draw of the
    random generator still to come, [clock i] the calendar date (as a day
    number) that the i-th coming read of the clock returns. *)
Record world : Type := mkWorld {
  rng : nat → nat;
  clock : nat → Z
}.

(** [random.choice(seq)] *)
Definition random_choice (seq : list string) : M world string :=
  λ w, match seq with
       | [] => (Raise IndexError, w)
       | _ => (Ok (nth (rng w 0 mod length seq) seq EmptyString),
               {| rng := λ i, rng w (S i); clock := clock w |})
       end.

(** [pd.Timestamp.now().date()] *)
Definition today : M world Z :=
  λ w, (Ok (clock w 0), {| rng := rng w; clock := λ i, clock w (S i) |}).

Local Open Scope py_scope.

(** ** Meal plan generator (lines 139-159) *)

(** The dict a day's meals are returned in; its keys are fixed, its values are
    the slot texts. *)
Record day_meals : Type := mkDay {
  Breakfast : string;
  Lunch : string;
  Dinner : string;
  Snack : string
}.

(** [day.values()], in insertion order. *)
Definition values (d : day_meals) : list string :=
  [Breakfast d; Lunch d; Dinner d; Snack d].

Inductive slot : Type := SBreakfast | SLunch | SDinner | SSnack.

Definition slot_text (d : day_meals) (s : slot) : string :=
  match s with
  | SBreakfast => Breakfast d
  | SLunch => Lunch d
  | SDinner => Dinner d
  | SSnack => Snack d
  end.

(** Truth value of a list: false when empty. *)
Definition truthy {A} (l : list A) : bool :=
  match l with [] => false | _ => true end.

(** [lf[lf['Category']==cat]['Food'].tolist()] *)
Definition foods_of (cat : string) (lf : frame) : list string :=
  Food <$> filter (λ r, Category r = cat) lf.

(** [f"{category_icons.get(cat, fallback)} {random.choice(foods)}"] *)
Definition pick (cat fallback : string) (foods : list string) : M world string :=
  let! food := random_choice foods in
  ret (dict_get category_icons cat fallback ++ " " ++ food).

Definition generate_day_meal (lf : frame) : M world day_meals :=
  let carbs := foods_of "Carbohydrates" lf in
  let proteins := foods_of "Proteins" lf in
  let vegs := foods_of "Vegetables" lf in
  let fruits := foods_of "Fruits" lf in
  let! breakfast :=
    (if truthy carbs && truthy fruits then
       let! c := pick "Carbohydrates" "🍞" carbs in
       let! f := pick "Fruits" "🍎" fruits in
       ret (c ++ " + " ++ f)
     else ret EmptyString) in
  let! lunch :=
    (if truthy carbs && truthy proteins && truthy vegs then
       let! c := pick "Carbohydrates" "🍞" carbs in
       let! p := pick "Proteins" "🍗" proteins in
       let! v := pick "Vegetables" "🥦" vegs in
       ret (c ++ " + " ++ p ++ " + " ++ v)
     else ret EmptyString) in
  let! dinner :=
    (if truthy carbs && truthy proteins && truthy vegs then
       let! c := pick "Carbohydrates" "🍞" carbs in
       let! p := pick "Proteins" "🍗" proteins in
       let! v := pick "Vegetables" "🥦" vegs in
       ret (c ++ " + " ++ p ++ " + " ++ v)
     else ret EmptyString) in
  let! snack :=
    (if truthy fruits then pick "Fruits" "🍎" fruits else ret EmptyString) in
  ret {| Breakfast := breakfast; Lunch := lunch; Dinner := dinner; Snack := snack |}.

(** The categories a slot draws from. *)
Definition required (s : slot) : list string :=
  match s with
  | SBreakfast => ["Carbohydrates"; "Fruits"]
  | SLunch | SDinner => ["Carbohydrates"; "Proteins"; "Vegetables"]
  | SSnack => ["Fruits"]
  end.

(** The plan: a dict from the date to the day's meals, in insertion order.
    The script keys it by [str(day)], the ISO form of the date, which is
    different for different dates; the model keys it by the date itself, a
    day number. *)
Abbreviation plan_dict := (list (Z * day_meals)).

(** [d[key] = value]: a present key keeps its place and takes the new value,
    a new key goes last. *)
Fixpoint dict_setitem (key : Z) (value : day_meals) (d : plan_dict) : plan_dict :=
  match d with
  | [] => [(key, value)]
  | (k, v) :: d' =>
      if decide (k = key) then (key, value) :: d'
      else (k, v) :: dict_setitem key value d'
  end.

(** The loop body of lines 155-156, for the indices [todo] still to run. *)
Fixpoint plan_loop (lf : frame) (todo : list nat) (plan : plan_dict) : M world plan_dict :=
  match todo with
  | [] => ret plan
  | i :: todo' =>
      let! now := today in
      let day := (now + Z.of_nat i)%Z in
      let! meals := generate_day_meal lf in
      plan_loop lf todo' (dict_setitem day meals plan)
  end.

(** The keys the loop sets: in its [k]-th round, run for the index [i], the
    date read in that round plus [i] days. *)
Definition loop_keys (w : world) (todo : list nat) : list Z :=
  imap (λ k i, (clock w k + Z.of_nat i)%Z) todo.

(** [plan = {}; for i in range(7): ...] *)
Definition generate_plan (lf : frame) : M world plan_dict :=
  plan_loop lf (seq 0 7) [].

(** ** Daily score (lines 162-166) *)

(** [l[i]] *)
Definition getitem {St} (l : list string) (i : nat) : M St string :=
  match l !! i with
  | Some x => ret x
  | None => raise IndexError
  end.

(** [[f(v) for v in l]] for an [f] that may raise. *)
Fixpoint for_each {St A B} (f : A → M St B) (l : list A) : M St (list B) :=
  match l with
  | [] => ret []
  | x :: l' =>
      let! y := f x in
      let! ys := for_each f l' in
      ret (y :: ys)
  end.

(** [' + '.join([v.split(' ',1)[1] for v in day_meals.values() if v]).split(' + ')] *)
Definition foods_list_of {St} (meals : day_meals) : M St (list string) :=
  let! heads :=
    for_each (λ v, getitem (PyStr.split_n " " 1 v) 1)
             (filter (λ v, v ≠ EmptyString) (values meals)) in
  ret (PyStr.split " + " (PyStr.join " + " heads)).

(** [filtered_df[filtered_df['Food'].isin(foods_list)]['Anti_Inflam'].sum()] *)
Definition score_sum (lf : frame) (foods_list : list string) : Q :=
  series_sum (Anti_Inflam <$> filter (λ r, Food r ∈ foods_list) lf).

(** One round of the loop of lines 163-166: the number appended. *)
Definition daily_score {St} (lf : frame) (meals : day_meals) : M St Q :=
  let! foods_list := foods_list_of meals in
  ret (if truthy foods_list
       then (score_sum lf foods_list / inject_Z (Z.of_nat (length foods_list)))%Q
       else 0%Q).

(** [daily_scores], over [plan.values()]. *)
Definition daily_scores {St} (lf : frame) (plan : plan_dict) : M St (list Q) :=
  for_each (λ entry, daily_score lf entry.2) plan.

(** The daily score as the specification words it: each chosen food name is
    looked up in the filtered set and the scores found are averaged; no food
    chosen gives zero. *)
Definition lookup_score (lf : frame) (name : string) : option Q :=
  Anti_Inflam <$> head (filter (λ r, Food r = name) lf).

Definition spec_daily_average (lf : frame) (chosen : list string) : Q :=
  match chosen with
  | [] => 0%Q
  | _ => (series_sum (omap (lookup_score lf) chosen) /
          inject_Z (Z.of_nat (length chosen)))%Q
  end.

(** ** The script's dataframes as objects

    The script binds names to dataframes and updates two of them in place
    (lines 73 and 105).  Objects live in a heap; a name holds a reference. *)

(** A row of a frame that has the [Icon] column next to the dataset's. *)
Record IconRow : Type := mkIconRow {
  base : FoodItem;
  Icon : string
}.

Inductive obj : Type :=
| DataFrame (rows : list FoodItem)      (* the five columns of the dataset *)
| IconFrame (rows : list IconRow)       (* the same and [Icon] *)
| RegionFrame (rows : list region_row)  (* Region, Food (a count), Notes *)
| PlanDict (plan : plan_dict)
| ScoreList (scores : list Q).

Abbreviation loc := nat.

Record state : Type := mkState {
  heap : gmap loc obj;
  next : loc;                 (* the first reference not in use *)
  globals : gmap string loc   (* the names bound so far *)
}.

(** A new object. *)
Definition alloc (o : obj) : M state loc :=
  λ s, (Ok (next s),
        {| heap := <[next s := o]> (heap s); next := S (next s); globals := globals s |}).

(** The object a reference leads to. *)
Definition deref (l : loc) : M state obj :=
  λ s, match heap s !! l with
       | Some o => (Ok o, s)
       | None => (Raise NameError, s)
       end.

(** An update in place of the object at [l]. *)
Definition update (l : loc) (o : obj) : M state unit :=
  λ s, (Ok (), {| heap := <[l := o]> (heap s); next := next s; globals := globals s |}).

(** Reading a name. *)
Definition load_name (name : string) : M state loc :=
  λ s, match globals s !! name with
       | Some l => (Ok l, s)
       | None => (Raise NameError, s)
       end.

(** [name = <object at l>] *)
Definition assign (name : string) (l : loc) : M state unit :=
  λ s, (Ok (), {| heap := heap s; next := next s; globals := <[name := l]> (globals s) |}).

(** The dataset columns of a frame. *)
Definition dataset_columns {St} (o : obj) : M St (list FoodItem) :=
  match o with
  | DataFrame rows => ret rows
  | IconFrame rows => ret (base <$> rows)
  | _ => raise KeyError
  end.

(** The rows of a frame that has the [Icon] column. *)
Definition icon_columns {St} (o : obj) : M St (list IconRow) :=
  match o with
  | IconFrame rows => ret rows
  | _ => raise KeyError
  end.

(** [filtered_df['Category'].map(category_icons).fillna('🍽️')] on one row. *)
Definition icon_of (r : FoodItem) : string :=
  dict_get category_icons (Category r) "🍽️".

(** [x] put in front of the first element that is not before it. *)
Fixpoint insert_by {A} (R : relation A) `{∀ x y, Decision (R x y)}
    (x : A) (l : list A) : list A :=
  match l with
  | [] => [x]
  | y :: l' => if decide (R x y) then x :: y :: l' else y :: insert_by R x l'
  end.

(** Sorting that leaves elements with equal keys in the order they had. *)
Definition stable_sort {A} (R : relation A) `{∀ x y, Decision (R x y)}
    (l : list A) : list A :=
  foldr (insert_by R) [] l.

(** [sort_values('Food')].  pandas sorts with [kind='quicksort'] and promises
    no order for rows with equal keys; the model leaves them in index order,
    as numpy's sort does on short columns.  What is proved of the sorted
    frames does not depend on the order of such rows. *)
Definition sort_by_food (rows : list IconRow) : list IconRow :=
  stable_sort (λ a b, String.le (Food (base a)) (Food (base b))) rows.

(** [sort_values(by="Anti_Inflam", ascending=False)]; rows with equal scores
    as for [sort_by_food]. *)
Definition sort_by_score_desc (rows : list IconRow) : list IconRow :=
  stable_sort (λ a b, Qle_bool (Anti_Inflam (base b)) (Anti_Inflam (base a))) rows.

(** [top_foods['Icon'] + ' ' + top_foods['Food']] on one row. *)
Definition relabel (r : IconRow) : IconRow :=
  {| base := {| Food := Icon r ++ " " ++ Food (base r);
                Category := Category (base r);
                Region := Region (base r);
                Anti_Inflam := Anti_Inflam (base r);
                Notes := Notes (base r) |};
     Icon := Icon r |}.

(** Running a computation over the world inside the script. *)
Definition with_world {A} (w : world) (m : M world A) : M state A :=
  λ s, ((m w).1, s).

(** The statements of the script that build or change a dataframe. *)
Inductive stmt : Type :=
| SFilter (selected_regions selected_categories : list string) (search_text : string)
| SIcon
| STable
| STop
| SRegion
| SPlan (w : world).

Definition exec (st : stmt) : M state unit :=
  match st with
  | SFilter selected_regions selected_categories search_text =>
      (* lines 65-70 *)
      let! l_df := load_name "df" in
      let! o := deref l_df in
      let! rows := dataset_columns o in
      match filtered_df rows selected_regions selected_categories search_text with
      | None => raise PatternError
      | Some kept =>
          let! _ := alloc (DataFrame kept) in          (* df[...] *)
          let! l := alloc (DataFrame kept) in          (* .copy() *)
          assign "filtered_df" l
      end
  | SIcon =>
      (* line 73 *)
      let! l := load_name "filtered_df" in
      let! o := deref l in
      let! rows := dataset_columns o in
      update l (IconFrame ((λ r, {| base := r; Icon := icon_of r |}) <$> rows))
  | STable =>
      (* line 93 *)
      let! l := load_name "filtered_df" in
      let! o := deref l in
      let! rows := icon_columns o in
      let! _ := alloc (IconFrame (sort_by_food rows)) in    (* sort_values *)
      let! l_table := alloc (IconFrame (sort_by_food rows)) in  (* [[...]] *)
      assign "table_df" l_table
  | STop =>
      (* lines 104-106 *)
      let! l := load_name "filtered_df" in
      let! o := deref l in
      let! rows := icon_columns o in
      let! _ := alloc (IconFrame (sort_by_score_desc rows)) in
      let! l_top := alloc (IconFrame (take 10 (sort_by_score_desc rows))) in
      let! _ := assign "top_foods" l_top in
      let! l_top' := load_name "top_foods" in
      let! o_top := deref l_top' in
      let! top_rows := icon_columns o_top in
      let! _ := update l_top' (IconFrame (relabel <$> top_rows)) in
      let! _ := alloc (DataFrame (base <$> (relabel <$> top_rows))) in
      ret ()
  | SRegion =>
      (* lines 109-112 *)
      let! l := load_name "filtered_df" in
      let! o := deref l in
      let! rows := dataset_columns o in
      let! l_region := alloc (RegionFrame (region_df rows)) in
      assign "region_df" l_region
  | SPlan w =>
      (* lines 153-166 *)
      let! l := load_name "filtered_df" in
      let! o := deref l in
      let! rows := dataset_columns o in
      let! plan := with_world w (generate_plan rows) in
      let! l_plan := alloc (PlanDict plan) in
      let! _ := assign "plan" l_plan in
      let! scores := daily_scores rows plan in
      let! l_scores := alloc (ScoreList scores) in
      assign "daily_scores" l_scores
  end.


(** [from food import df] *)
Definition boot (df : frame) : state :=
  {| heap := {[ 0%nat := DataFrame df ]}; next := 1; globals := {[ "df" := 0%nat ]} |}.

(** One run of the script with the button pressed. *)
Definition script (selected_regions selected_categories : list string)
    (search_text : string) (w : world) : list stmt :=
  [SFilter selected_regions selected_categories search_text;
   SIcon; STable; STop; SRegion; SPlan w].

(** ** The frames of the table and of the top ten, as values *)

(** The two orders the script sorts by. *)
Definition by_food : relation IconRow :=
  λ a b, String.le (Food (base a)) (Food (base b)).
Definition by_score_desc : relation IconRow :=
  λ a b, Qle_bool (Anti_Inflam (base b)) (Anti_Inflam (base a)).

(** Line 73 on the rows of a frame: each row with the icon of its
    category. *)
Definition with_icons (lf : frame) : list IconRow :=
  (λ r, {| base := r; Icon := icon_of r |}) <$> lf.

(** [table_df] of line 93 (the selection [[...]] keeps all six columns). *)
Definition table_df (rows : list IconRow) : list IconRow := sort_by_food rows.

(** [top_foods] as lines 104-105 leave it. *)
Definition top_foods (rows : list IconRow) : list IconRow :=
  relabel <$> take 10 (sort_by_score_desc rows).

(** Statements one after the other, stopping at the first that raises: one
    run of the script. *)
Fixpoint exec_all (stmts : list stmt) : M state unit :=
  match stmts with
  | [] => ret ()
  | st :: stmts' => let! _ := exec st in exec_all stmts'
  end.

(** The object a name leads to, if the name is bound. *)
Definition value_of (name : string) (s : state) : option obj :=
  globals s !! name ≫= λ l, heap s !! l.



(** ** Search texts without special characters *)

(** No character of the search text is special in a pattern. *)
Fixpoint is_literal (q : string) : bool :=
  match q with
  | EmptyString => true
  | String c q' => negb (Re.is_special c) && is_literal q'
  end.

(** A text of ASCII characters. *)
Definition is_ascii (s : string) : bool :=
  forallb (λ c, (nat_of_ascii c <? 128)%nat) (list_ascii_of_string s).

(** The two columns the search box looks into hold ASCII texts. *)
Definition ascii_cells (df : frame) : Prop :=
  Forall (λ r, is_ascii (Food r) = true ∧ is_ascii (Notes r) = true) df.

(** The pattern of a text taken character by character. *)
Fixpoint lits (q : string) : Re.pattern :=
  match q with
  | EmptyString => []
  | String c q' => Re.Lit c :: lits q'
  end.

Global Instance spec_keeps_dec rs cs q r : Decision (spec_keeps rs cs q r).
Proof. unfold spec_keeps. apply _. Defined.

(** ** Days and their slot texts *)

(** The day in which no slot could be filled. *)
Definition blank_day : day_meals :=
  {| Breakfast := EmptyString; Lunch := EmptyString;
     Dinner := EmptyString; Snack := EmptyString |}.

(** A slot text as [generate_day_meal] writes it: blank, or an icon, a space
    and the rest. *)
Definition slot_shape (v : string) : Prop :=
  v = EmptyString ∨ ∃ icon rest, v = icon ++ " " ++ rest.

Definition day_shape (d : day_meals) : Prop :=
  Forall slot_shape (values d).

(** ** Sample data *)

Module Sample.

Definition yam : FoodItem :=
  {| Food := "Yam"; Category := "Carbohydrates"; Region := "West";
     Anti_Inflam := 8; Notes := "Rich in fibre" |}.
Definition fish : FoodItem :=
  {| Food := "Fish"; Category := "Proteins"; Region := "South";
     Anti_Inflam := 6; Notes := "Omega-3 fats" |}.
Definition ugu : FoodItem :=
  {| Food := "Ugu"; Category := "Vegetables"; Region := "East";
     Anti_Inflam := 9; Notes := "Leafy green" |}.
Definition mango : FoodItem :=
  {| Food := "Mango"; Category := "Fruits"; Region := "West";
     Anti_Inflam := 7; Notes := "Vitamin C" |}.

(** One food in each category the generator draws from. *)
Definition foods : frame := [yam; fish; ugu; mango].

(** The day that [generate_day_meal] writes for [foods]: each list has one
    food, so the draws do not matter. *)
Definition day : day_meals :=
  {| Breakfast := "🍞 Yam + 🍎 Mango";
     Lunch := "🍞 Yam + 🍗 Fish + 🥦 Ugu";
     Dinner := "🍞 Yam + 🍗 Fish + 🥦 Ugu";
     Snack := "🍎 Mango" |}.

(** The foods chosen on that day, slot by slot. *)
Definition chosen : list string :=
  ["Yam"; "Mango"; "Yam"; "Fish"; "Ugu"; "Yam"; "Fish"; "Ugu"; "Mango"].

(** A row whose name is the empty string, in a category no slot uses. *)
Definition unnamed : FoodItem :=
  {| Food := EmptyString; Category := "Spices & Herbs"; Region := "North";
     Anti_Inflam := 5; Notes := "Blend" |}.

(** Every draw is 0 and the clock stays on day 100. *)
Definition still : world := {| rng := λ _, 0%nat; clock := λ _, 100%Z |}.

(** Midnight passes between the third and the fourth read of the clock. *)
Definition midnight : world :=
  {| rng := λ _, 0%nat; clock := λ i, if (i <? 3)%nat then 100%Z else 101%Z |}.

End Sample.

(** * Properties *)

(** ** Strings and patterns *)

Section patterns.

Lemma contains_unfold sub s :
  PyStr.contains sub s =
  PyStr.startswith sub s ||
  match s with
  | EmptyString => false
  | String _ s' => PyStr.contains sub s'
  end.
Proof.
  unfold PyStr.contains. destruct s as [|c s]; simpl.
  - by destruct (PyStr.startswith sub EmptyString).
  - destruct (PyStr.startswith sub (String c s)); [done|].
    by destruct (PyStr.find sub s).
Qed.

Lemma not_special_not_dot c :
  Re.is_special c = false → Ascii.eqb c Re.dot_char = false.
Proof.
  intros Hc. destruct (Ascii.eqb_spec c Re.dot_char) as [->|]; [|done].
  by vm_compute in Hc.
Qed.

Lemma re_compile_literal q :
  is_literal q = true → Re.re_compile q = Some (lits q).
Proof.
  induction q as [|c q IH]; simpl; [done|].
  intros [Hc Hq]%andb_true_iff. apply negb_true_iff in Hc.
  rewrite (not_special_not_dot c Hc), Hc, (IH Hq). done.
Qed.

Lemma match_here_lits q s :
  Re.match_here true (lits q) s = PyStr.startswith (PyStr.lower q) (PyStr.lower s).
Proof.
  revert s. induction q as [|c q IH]; intros [|d s]; simpl; try done.
  rewrite IH. unfold PyStr.startswith. simpl.
  destruct (Ascii.eqb_spec (PyStr.lower_ascii c) (PyStr.lower_ascii d)) as [->|Hne].
  - by destruct (ascii_dec _ _).
  - by destruct (ascii_dec _ _).
Qed.

Lemma search_lits q s :
  Re.search true (lits q) s = icontains q s.
Proof.
  unfold icontains. induction s as [|d s IH].
  - rewrite contains_unfold, <- match_here_lits. by destruct (lits q).
  - cbn [Re.search PyStr.lower].
    rewrite (contains_unfold _ (String _ _)), <- IH. f_equal.
    apply (match_here_lits q (String d s)).
Qed.

(** On a search text without special characters the regular-expression
    test is the plain case-insensitive substring test. *)
Lemma str_contains_literal q cell :
  is_literal q = true → str_contains q false cell = Some (icontains q cell).
Proof.
  intros Hq. unfold str_contains. rewrite (re_compile_literal q Hq). simpl.
  by rewrite search_lits.
Qed.

(** An occurrence, spelled out: [icontains] holds exactly when the cell
    splits around a piece that equals the query up to case. *)
Lemma startswith_app p s :
  PyStr.startswith p s = true ↔ ∃ rest, s = p ++ rest.
Proof.
  unfold PyStr.startswith. revert s. induction p as [|c p IH]; intros s.
  - split; [intros _; by exists s|]. by destruct s.
  - destruct s as [|d s]; simpl.
    { split; [done|]. by intros [rest ?]. }
    destruct (ascii_dec c d) as [->|Hne].
    + rewrite IH. split.
      * intros [rest ->]. by exists rest.
      * intros [rest H]. injection H as ->. by exists rest.
    + split; [done|]. intros [rest H]. by injection H.
Qed.

Lemma contains_app sub s :
  PyStr.contains sub s = true ↔ ∃ before after, s = before ++ sub ++ after.
Proof.
  induction s as [|d s IH]; rewrite contains_unfold, orb_true_iff, startswith_app.
  - split.
    + intros [[rest ->]|?]; [|done]. by exists EmptyString, rest.
    + intros (before & after & H). left. destruct before; [by exists after|done].
  - rewrite IH. split.
    + intros [[rest ->]|(before & after & ->)].
      * by exists EmptyString, rest.
      * by exists (String d before), after.
    + intros (before & after & H). destruct before as [|c before]; simpl in H.
      * left. by exists after.
      * right. injection H as -> ->. by exists before, after.
Qed.

End patterns.

(** ** The filter *)

Section filter.

Lemma select_total (mask : FoodItem → option bool) (keep : FoodItem → bool) df :
  (∀ r, r ∈ df → mask r = Some (keep r)) →
  select mask df = Some (filter (λ r, keep r = true) df).
Proof.
  induction df as [|r df IH]; intros Hmask; [done|].
  cbn [select]. rewrite (Hmask r) by left.
  rewrite IH by (intros r' Hr'; apply Hmask; by right).
  rewrite filter_cons. cbn. by destruct (keep r).
Qed.

Lemma select_elem_of (mask : FoodItem → option bool) df out r :
  select mask df = Some out → r ∈ out ↔ r ∈ df ∧ mask r = Some true.
Proof.
  revert out. induction df as [|x df IH]; intros out; cbn [select].
  - intros [= <-]. split; [by intros ?%elem_of_nil | by intros [?%elem_of_nil _]].
  - destruct (mask x) as [keep|] eqn:Hx; [|done].
    destruct (select mask df) as [rest|]; [|done]. cbn.
    intros [= <-]. specialize (IH rest eq_refl).
    destruct keep; rewrite ?elem_of_cons, IH;
      intuition (subst; first [congruence | auto]).
Qed.

(** Whatever the search text, a row the filter returns is a row of the
    dataset whose region and category are among the selected ones. *)
Lemma filtered_df_selected df rs cs q out r :
  filtered_df df rs cs q = Some out → r ∈ out →
  r ∈ df ∧ Region r ∈ rs ∧ Category r ∈ cs.
Proof.
  unfold filtered_df. destruct (Re.re_compile q); [|done]. cbn.
  intros Hsel [Hr Hmask]%(select_elem_of _ _ _ _ Hsel). split; [done|].
  unfold row_mask, isin in Hmask.
  destruct (str_contains q false (Food r)); [|done].
  destruct (str_contains q false (Notes r)); [|done].
  cbn in Hmask. injection Hmask as Hmask.
  apply andb_true_iff in Hmask as [[H1 H2]%andb_true_iff _].
  by rewrite !bool_decide_eq_true in H1, H2.
Qed.

(** With no region selected, or no category, nothing is returned. *)
Lemma filtered_df_nothing_selected df rs cs q out :
  filtered_df df rs cs q = Some out → rs = [] ∨ cs = [] → out = [].
Proof.
  intros Hout Hnone. destruct out as [|r out]; [done|].
  destruct (filtered_df_selected df rs cs q _ r Hout) as (_ & Hr & Hc); [left|].
  destruct Hnone as [-> | ->]; by apply elem_of_nil in Hr || apply elem_of_nil in Hc.
Qed.

Lemma row_mask_literal rs cs q r :
  is_literal q = true →
  row_mask rs cs q r = Some (bool_decide (spec_keeps rs cs q r)).
Proof.
  intros Hq. unfold row_mask, isin.
  rewrite !(str_contains_literal q _ Hq). simpl. f_equal.
  apply eq_true_iff_eq.
  rewrite bool_decide_eq_true, !andb_true_iff, orb_true_iff, !bool_decide_eq_true.
  unfold spec_keeps. tauto.
Qed.

(** For a search text without special characters the filter returns, in
    the order of the dataset, exactly the rows that the specification
    keeps. *)
Lemma filtered_df_literal df rs cs q :
  is_literal q = true →
  filtered_df df rs cs q = Some (filter (spec_keeps rs cs q) df).
Proof.
  intros Hq. unfold filtered_df. rewrite (re_compile_literal q Hq). simpl.
  rewrite (select_total _ (λ r, bool_decide (spec_keeps rs cs q r))).
  - f_equal. apply list_filter_iff. intros r. by rewrite bool_decide_eq_true.
  - intros r _. by apply row_mask_literal.
Qed.

Lemma unique_elem_of l x : x ∈ unique l ↔ x ∈ l.
Proof.
  induction l as [|y l IH]; simpl; [done|].
  rewrite !elem_of_cons, list_elem_of_filter, IH.
  destruct (decide (x = y)); tauto.
Qed.

Lemma unique_NoDup l : NoDup (unique l).
Proof.
  induction l as [|y l IH]; simpl; [constructor|].
  constructor.
  - rewrite list_elem_of_filter. by intros [Hne _].
  - by apply NoDup_filter.
Qed.

Lemma sorted_unique_elem_of l x : x ∈ sorted (unique l) ↔ x ∈ l.
Proof.
  unfold sorted. by rewrite merge_sort_Permutation, unique_elem_of.
Qed.

Lemma search_empty_pattern ic s : Re.search ic [] s = true.
Proof. by destruct s. Qed.

End filter.

(** C1, at the search text [.]: the filter keeps a food whose name and notes
    contain no dot, because the text is compiled as a regular expression in
    which the dot stands for any character; the specification's substring
    test rejects the same row. *)
Theorem C1_dot_is_a_wildcard :
  filtered_df [Sample.yam] ["West"] ["Carbohydrates"] "." = Some [Sample.yam] ∧
  icontains "." (Food Sample.yam) = false ∧
  icontains "." (Notes Sample.yam) = false ∧
  filter (spec_keeps ["West"] ["Carbohydrates"] ".") [Sample.yam] = [].
Proof. by vm_compute. Qed.

(** C5: with every region and every category of the dataset selected and
    an empty search text, the filter returns the dataset itself. *)
Theorem C5_full_selection_is_identity (df : frame) :
  filtered_df df (regions df) (categories df) EmptyString = Some df.
Proof.
  unfold filtered_df. simpl.
  rewrite (select_total _ (λ _, true)).
  - f_equal. induction df as [|r df IH]; [done|].
    rewrite filter_cons_True by done. by f_equal.
  - intros r Hr. unfold row_mask, str_contains. simpl.
    rewrite !search_empty_pattern. simpl. f_equal.
    unfold isin, regions, categories.
    rewrite !bool_decide_eq_true_2; [done| |].
    + apply sorted_unique_elem_of. by apply list_elem_of_fmap_2.
    + apply sorted_unique_elem_of. by apply list_elem_of_fmap_2.
Qed.

(** ** The metric card *)

Lemma avg_score_defined (lf : frame) : is_Some (avg_score lf).
Proof. destruct lf as [|r lf]; simpl; eauto. Qed.

(** C6: on an empty filtered set the card shows 0, and for no filtered set
    is the value missing (a NaN) or is an exception raised: [avg_score] is a
    total function. *)
Theorem C6_empty_average_is_zero :
  avg_score [] = Some 0%Q ∧ ∀ lf : frame, is_Some (avg_score lf).
Proof. split; [reflexivity | apply avg_score_defined]. Qed.

(** ** Foods per region *)

Section aggregation.

Implicit Types (lf : frame) (key : FoodItem → string).

(** The group of a key holds the rows with that key, in their order; a
    key with no row has no group. *)
Lemma group_by_lookup key lf k :
  group_by key lf !! k =
  match filter (λ r, key r = k) lf with
  | [] => None
  | g => Some g
  end.
Proof.
  induction lf as [|r lf IH]; [done|].
  change (group_by key (r :: lf))
    with (partial_alter (λ g, Some (r :: default [] g)) (key r) (group_by key lf)).
  rewrite lookup_partial_alter, filter_cons.
  destruct (decide (key r = k)) as [Hk|Hk].
  - rewrite Hk, IH. by destruct (filter _ lf).
  - by rewrite IH.
Qed.

Lemma group_by_present key lf k :
  k ∈ key <$> lf →
  group_by key lf !! k = Some (filter (λ r, key r = k) lf).
Proof.
  intros (r & -> & Hr)%list_elem_of_fmap. rewrite group_by_lookup.
  destruct (filter _ lf) as [|x g] eqn:Hg; [|done].
  exfalso. by apply (filter_nil_not_elem_of _ _ r Hg).
Qed.

Lemma group_by_absent key lf k :
  k ∉ key <$> lf → group_by key lf !! k = None.
Proof.
  intros Hk. rewrite group_by_lookup.
  destruct (filter _ lf) as [|x g] eqn:Hg; [done|].
  assert (x ∈ filter (λ r, key r = k) lf) as [<- Hx]%list_elem_of_filter
    by (rewrite Hg; left).
  destruct Hk. by apply list_elem_of_fmap_2.
Qed.

Lemma agg_no_row (groups : list (string * list FoodItem)) k :
  k ∉ groups.*1 →
  filter (λ row, rr_Region row = k) (agg_region <$> groups) = [].
Proof.
  induction groups as [|[k' g'] groups IH]; [done|].
  rewrite fmap_cons, not_elem_of_cons. intros [Hne Hk].
  rewrite fmap_cons, filter_cons_False; [by apply IH|].
  simpl. intros ->. by apply Hne.
Qed.

Lemma agg_one_row (groups : list (string * list FoodItem)) k g :
  NoDup groups.*1 → (k, g) ∈ groups →
  filter (λ row, rr_Region row = k) (agg_region <$> groups) = [agg_region (k, g)].
Proof.
  induction groups as [|[k' g'] groups IH]; [by intros _ ?%elem_of_nil|].
  rewrite fmap_cons, NoDup_cons. intros [Hk' Hnd] Hin.
  rewrite fmap_cons. destruct (decide (k' = k)) as [->|Hne].
  - assert (g' = g) as ->.
    { apply elem_of_cons in Hin as [[=]|Hin]; [done|].
      destruct Hk'. by apply (list_elem_of_fmap_2 fst _ (k, g)). }
    rewrite filter_cons_True by done. by rewrite agg_no_row.
  - rewrite filter_cons_False by done.
    apply IH; [done|]. apply elem_of_cons in Hin as [[=]|Hin]; [congruence|done].
Qed.

Lemma region_groups_perm lf :
  merge_sort (λ g1 g2 : string * list FoodItem, String.le g1.1 g2.1)
    (map_to_list (group_by Region lf)) ≡ₚ map_to_list (group_by Region lf).
Proof. apply merge_sort_Permutation. Qed.

(** The regions of the chart are the regions of the filtered set. *)
Lemma region_df_keys lf k :
  k ∈ rr_Region <$> region_df lf ↔ k ∈ Region <$> lf.
Proof.
  unfold region_df. rewrite <- list_fmap_compose, region_groups_perm.
  change (rr_Region ∘ agg_region) with (@fst string (list FoodItem)).
  split.
  - intros ([k' g] & -> & Hin%elem_of_map_to_list)%list_elem_of_fmap.
    destruct (decide (k' ∈ Region <$> lf)) as [|Hk]; [done|].
    by rewrite (group_by_absent _ _ _ Hk) in Hin.
  - intros Hk. apply list_elem_of_fmap.
    exists (k, filter (λ r, Region r = k) lf). split; [done|].
    apply elem_of_map_to_list. by apply group_by_present.
Qed.

End aggregation.

(** C7: for a region present in the filtered set the aggregation has
    exactly one row, and that row carries the number of the region's foods
    and the region's notes joined by a comma and a space, in row order. *)
Theorem C7_region_aggregation (lf : frame) (region : string) :
  region ∈ Region <$> lf →
  filter (λ row, rr_Region row = region) (region_df lf) =
    [ {| rr_Region := region;
         rr_Food := length (filter (λ r, Region r = region) lf);
         rr_Notes := PyStr.join ", " (Notes <$> filter (λ r, Region r = region) lf) |} ].
Proof.
  intros Hin. unfold region_df.
  rewrite (agg_one_row _ region (filter (λ r, Region r = region) lf)).
  - unfold agg_region. simpl. by rewrite length_fmap.
  - rewrite region_groups_perm. apply NoDup_fst_map_to_list.
  - rewrite region_groups_perm. apply elem_of_map_to_list. by apply group_by_present.
Qed.

Lemma C7_region_aggregation_witness :
  filter (λ row, rr_Region row = "West") (region_df Sample.foods) =
    [ {| rr_Region := "West"; rr_Food := 2; rr_Notes := "Rich in fibre, Vitamin C" |} ].
Proof.
  apply (C7_region_aggregation Sample.foods "West").
  vm_compute. apply list_elem_of_In. simpl. tauto.
Defined.

(** ** The meal generator *)

Section generator.

Implicit Types (lf : frame) (w : world).

Lemma foods_of_absent lf cat :
  cat ∉ Category <$> lf → foods_of cat lf = [].
Proof.
  intros Hcat. unfold foods_of.
  destruct (filter _ lf) as [|r g] eqn:Hg; [done|].
  assert (r ∈ filter (λ r, Category r = cat) lf) as [<- Hr]%list_elem_of_filter
    by (rewrite Hg; left).
  destruct Hcat. by apply list_elem_of_fmap_2.
Qed.

(** A draw from a non-empty list returns one of its elements and leaves
    the clock alone. *)
Lemma random_choice_ok (x : string) (seq : list string) w :
  ∃ y w', random_choice (x :: seq) w = (Ok y, w') ∧
          y ∈ x :: seq ∧ clock w' = clock w.
Proof.
  eexists _, _. split; [reflexivity|]. split; [|done].
  apply list_elem_of_In, nth_In, Nat.mod_upper_bound. done.
Qed.

Lemma random_choice_one (x : string) w :
  random_choice [x] w = (Ok x, {| rng := λ i, rng w (S i); clock := clock w |}).
Proof. unfold random_choice. cbn [length]. by rewrite Nat.mod_1_r. Qed.

Lemma pick_ok cat fallback (x : string) (seq : list string) w :
  ∃ y w', pick cat fallback (x :: seq) w =
            (Ok (dict_get category_icons cat fallback ++ " " ++ y), w') ∧
          y ∈ x :: seq ∧ clock w' = clock w.
Proof.
  destruct (random_choice_ok x seq w) as (y & w' & Hy & ? & ?).
  exists y, w'. unfold pick, bind. by rewrite Hy.
Qed.

(** What a call of [generate_day_meal] does: it returns, a slot is blank
    unless every list it draws from is non-empty, and the clock is not
    read. *)
Lemma generate_day_meal_spec lf w :
  ∃ d w',
    generate_day_meal lf w = (Ok d, w') ∧
    clock w' = clock w ∧
    day_shape d ∧
    (truthy (foods_of "Carbohydrates" lf) && truthy (foods_of "Fruits" lf) = false →
       Breakfast d = EmptyString) ∧
    (truthy (foods_of "Carbohydrates" lf) && truthy (foods_of "Proteins" lf) &&
       truthy (foods_of "Vegetables" lf) = false →
       Lunch d = EmptyString ∧ Dinner d = EmptyString) ∧
    (truthy (foods_of "Fruits" lf) = false → Snack d = EmptyString).
Proof.
  unfold generate_day_meal.
  generalize (foods_of "Carbohydrates" lf) (foods_of "Proteins" lf)
             (foods_of "Vegetables" lf) (foods_of "Fruits" lf).
  intros carbs proteins vegs fruits.

  (* breakfast *)
  assert (∃ b w1,
    (if truthy carbs && truthy fruits
     then let! c := pick "Carbohydrates" "🍞" carbs in
          let! f := pick "Fruits" "🍎" fruits in ret (c ++ " + " ++ f)
     else ret EmptyString) w = (Ok b, w1) ∧ clock w1 = clock w ∧
    (truthy carbs && truthy fruits = false → b = EmptyString) ∧
    slot_shape b)
    as (b & w1 & Hb & Hc1 & Hb0 & Hbs).
  { destruct carbs as [|c carbs], fruits as [|f fruits]; simpl;
      (eexists _, _; do 3 (split; [done|]));
      first [ by left | right; by eexists (dict_get category_icons "Carbohydrates" "🍞"), _ ]. }
  (* lunch and dinner *)
  assert (∀ w0, ∃ m w2,
    (if truthy carbs && truthy proteins && truthy vegs
     then let! c := pick "Carbohydrates" "🍞" carbs in
          let! p := pick "Proteins" "🍗" proteins in
          let! v := pick "Vegetables" "🥦" vegs in
          ret (c ++ " + " ++ p ++ " + " ++ v)
     else ret EmptyString) w0 = (Ok m, w2) ∧ clock w2 = clock w0 ∧
    (truthy carbs && truthy proteins && truthy vegs = false → m = EmptyString) ∧
    slot_shape m)
    as Hmain.
  { intros w0.
    destruct carbs as [|c carbs], proteins as [|p proteins], vegs as [|v vegs];
      simpl; (eexists _, _; do 3 (split; [done|]));
      first [ by left | right; by eexists (dict_get category_icons "Carbohydrates" "🍞"), _ ]. }
  destruct (Hmain w1) as (l & w2 & Hl & Hc2 & Hl0 & Hls).
  destruct (Hmain w2) as (dn & w3 & Hd & Hc3 & Hd0 & Hds).
  (* snack *)
  assert (∃ sn w4,
    (if truthy fruits then pick "Fruits" "🍎" fruits else ret EmptyString) w3
      = (Ok sn, w4) ∧ clock w4 = clock w3 ∧
    (truthy fruits = false → sn = EmptyString) ∧
    slot_shape sn)
    as (sn & w4 & Hs & Hc4 & Hs0 & Hss).
  { destruct fruits as [|f fruits]; simpl;
      (eexists _, _; do 3 (split; [done|]));
      first [ by left | right; by eexists (dict_get category_icons "Fruits" "🍎"), _ ]. }
  exists {| Breakfast := b; Lunch := l; Dinner := dn; Snack := sn |}, w4.
  split.
  { unfold bind at 1. rewrite Hb. unfold bind at 1. rewrite Hl.
    unfold bind at 1. rewrite Hd. unfold bind at 1. by rewrite Hs. }
  split; [congruence|].
  split; [do 4 (constructor 2; [assumption|]); constructor 1|]. simpl. auto.
Qed.

End generator.

(** C9: [generate_day_meal] returns on every frame and every state of the
    generator.  [random_choice] raises on an empty list, so a returned
    result means that no draw was made from an empty list. *)
Theorem C9_generate_day_meal_total (lf : frame) (w : world) :
  ∃ d w', generate_day_meal lf w = (Ok d, w').
Proof.
  destruct (generate_day_meal_spec lf w) as (d & w' & H & _). by exists d, w'.
Qed.

(** C4: when a category a slot requires has no row in the filtered set, the
    call returns and the text of that slot is the empty string. *)
Theorem C4_missing_category_blank_slot (lf : frame) (s : slot) (cat : string) (w : world) :
  cat ∈ required s →
  cat ∉ Category <$> lf →
  ∃ d w', generate_day_meal lf w = (Ok d, w') ∧ slot_text d s = EmptyString.
Proof.
  intros Hreq Habs. apply foods_of_absent in Habs.
  destruct (generate_day_meal_spec lf w) as (d & w' & H & _ & _ & Hb & Hl & Hs).
  exists d, w'. split; [done|].
  destruct s; simpl in *;
    repeat (apply elem_of_cons in Hreq as [->|Hreq]);
    try (by apply elem_of_nil in Hreq);
    rewrite Habs in *; simpl in *;
    rewrite ?andb_false_r in *; try (by apply Hb); try (by apply Hl); by apply Hs.
Qed.

Lemma C4_missing_category_blank_slot_witness :
  ∃ d w', generate_day_meal [Sample.yam; Sample.fish; Sample.mango] Sample.still = (Ok d, w') ∧
          slot_text d SLunch = EmptyString.
Proof.
  apply (C4_missing_category_blank_slot _ SLunch "Vegetables" Sample.still).
  - vm_compute. apply list_elem_of_In. simpl. tauto.
  - vm_compute. intros H%list_elem_of_In. simpl in H.
    repeat destruct H as [H|H]; (discriminate H || contradiction).
Defined.

(** ** The seven-day plan *)

Section plan.

Implicit Types (lf : frame) (w : world) (plan : plan_dict).

Lemma dict_setitem_fresh key value plan :
  key ∉ plan.*1 → dict_setitem key value plan = (plan ++ [(key, value)])%list.
Proof.
  induction plan as [|[k v] plan IH]; [done|].
  rewrite fmap_cons, not_elem_of_cons. intros [Hne Hk]. simpl.
  destruct (decide (k = key)) as [->|_]; [done|]. by rewrite IH.
Qed.

(** Entries with new, pairwise different keys are appended in order. *)
Lemma setitem_all_fresh (entries : plan_dict) plan :
  NoDup (plan.*1 ++ entries.*1)%list →
  foldl (λ p e, dict_setitem e.1 e.2 p) plan entries = (plan ++ entries)%list.
Proof.
  revert plan. induction entries as [|[k v] entries IH]; intros plan Hnd.
  - by rewrite app_nil_r.
  - simpl. rewrite dict_setitem_fresh.
    + rewrite IH; [by rewrite <- app_assoc|].
      rewrite fmap_app. simpl. by rewrite <- app_assoc.
    + apply NoDup_app in Hnd as (_ & Hdisj & _).
      intros Hk. apply (Hdisj k Hk). simpl. left.
Qed.

(** The loop returns, having set one entry per index, in order. *)
Lemma plan_loop_sets lf todo plan w :
  ∃ days w',
    plan_loop lf todo plan w =
      (Ok (foldl (λ p e, dict_setitem e.1 e.2 p) plan (zip (loop_keys w todo) days)), w') ∧
    length days = length todo.
Proof.
  revert plan w. induction todo as [|i todo IH]; intros plan w.
  - by exists [], w.
  - cbn [plan_loop]. unfold bind at 1. cbn [today].
    set (w1 := {| rng := rng w; clock := λ i, clock w (S i) |}).
    destruct (generate_day_meal_spec lf w1) as (d & w2 & Hd & Hc & _).
    unfold bind at 1. rewrite Hd.
    destruct (IH (dict_setitem (clock w 0 + Z.of_nat i) d plan) w2)
      as (days & w' & Hloop & Hlen).
    exists (d :: days), w'. split; [|simpl; by rewrite Hlen].
    rewrite Hloop. unfold loop_keys. by rewrite Hc.
Qed.

(** When the seven keys differ from one another, the plan has exactly
    these keys, in the order of the rounds. *)
Lemma generate_plan_keys lf w :
  NoDup (loop_keys w (seq 0 7)) →
  ∃ plan w',
    generate_plan lf w = (Ok plan, w') ∧ plan.*1 = loop_keys w (seq 0 7).
Proof.
  intros Hnd. unfold generate_plan.
  destruct (plan_loop_sets lf (seq 0 7) [] w) as (days & w' & -> & Hlen).
  assert (length (loop_keys w (seq 0 7)) ≤ length days)%nat as Hle.
  { unfold loop_keys. by rewrite length_imap, Hlen. }
  eexists _, w'. split; [reflexivity|].
  rewrite setitem_all_fresh.
  - by apply fst_zip.
  - cbn [fmap list_fmap app]. by rewrite fst_zip.
Qed.

(** On a day that does not change while the loop runs, the plan has seven
    entries, keyed by that day and the six days after it, in this order. *)
Lemma generate_plan_same_day lf w day0 :
  (∀ i, (i < 7)%nat → clock w i = day0) →
  ∃ plan w',
    generate_plan lf w = (Ok plan, w') ∧
    plan.*1 = (λ i, (day0 + Z.of_nat i)%Z) <$> seq 0 7.
Proof.
  intros Hclock.
  assert (loop_keys w (seq 0 7) = (λ i, (day0 + Z.of_nat i)%Z) <$> seq 0 7) as Hkeys.
  { unfold loop_keys. cbn [seq imap fmap list_fmap compose].
    by rewrite !Hclock by lia. }
  destruct (generate_plan_keys lf w) as (plan & w' & Hplan & Hfst).
  - rewrite Hkeys. apply NoDup_fmap_2_strong; [|apply NoDup_seq]. intros; lia.
  - exists plan, w'. by rewrite <- Hkeys.
Qed.

End plan.

(** C2, when midnight passes during the loop: for every filtered set and
    whatever the draws, the clock is read anew in every round, so the fourth
    key is the new day plus three.  The plan has seven entries with
    increasing dates, but none for the fourth day: 100, 101, 102, 104, ... *)
Theorem C2_midnight_skips_a_day (lf : frame) (draws : nat → nat) :
  ∃ plan w',
    generate_plan lf {| rng := draws; clock := clock Sample.midnight |} = (Ok plan, w') ∧
    plan.*1 = [100; 101; 102; 104; 105; 106; 107]%Z.
Proof.
  apply (generate_plan_keys lf {| rng := draws; clock := clock Sample.midnight |}).
  by apply (bool_decide_unpack (NoDup _)).
Qed.

(** ** The daily score *)

Section score.

Implicit Types (lf : frame) (meals : day_meals).

Lemma split_n_nonempty sep n s : (0 < length (PyStr.split_n sep n s))%nat.
Proof.
  destruct n as [|n]; simpl; [lia|].
  destruct (PyStr.find sep s); simpl; lia.
Qed.

(** [split] never returns the empty list. *)
Lemma split_nonempty sep s : (0 < length (PyStr.split sep s))%nat.
Proof. apply split_n_nonempty. Qed.

Lemma foods_list_of_nonempty {St} meals (s s' : St) foods_list :
  foods_list_of meals s = (Ok foods_list, s') → (0 < length foods_list)%nat.
Proof.
  unfold foods_list_of, bind.
  destruct (for_each _ _ s) as [[heads|e] s1]; [|done].
  intros [= <- _]. apply split_nonempty.
Qed.

Lemma filter_none {A} (P : A → Prop) `{∀ x, Decision (P x)} (l : list A) :
  (∀ x, x ∈ l → ¬ P x) → filter P l = [].
Proof.
  intros Hl. destruct (filter P l) as [|x k] eqn:Hk; [done|].
  assert (x ∈ filter P l) as [HP Hx]%list_elem_of_filter by (rewrite Hk; left).
  by destruct (Hl x Hx).
Qed.

(** No row is named by the empty string: the sum over the tokens of a
    blank day is zero. *)
Lemma score_sum_blank lf :
  (∀ r, r ∈ lf → Food r ≠ EmptyString) → score_sum lf [EmptyString] = 0%Q.
Proof.
  intros Hlf. unfold score_sum. rewrite filter_none; [done|].
  intros r Hr Hin. apply list_elem_of_singleton in Hin. by apply (Hlf r).
Qed.

(** A text with a space in it has a part after its first space. *)
Lemma after_first_space icon rest :
  ∃ x, PyStr.split_n " " 1 (icon ++ " " ++ rest) !! 1%nat = Some x.
Proof.
  assert (PyStr.contains " " (icon ++ " " ++ rest) = true) as Hc
    by (apply contains_app; by exists icon, rest).
  unfold PyStr.contains in Hc. cbn [PyStr.split_n].
  destruct (PyStr.find " " _) as [i|]; [|done]. by eexists.
Qed.

Lemma heads_ok {St} (texts : list string) (s : St) :
  Forall slot_shape texts →
  ∃ heads,
    for_each (λ v, getitem (PyStr.split_n " " 1 v) 1)
             (filter (λ v, v ≠ EmptyString) texts) s = (Ok heads, s).
Proof.
  induction 1 as [|v texts Hv _ [heads IH]]; [by exists []|].
  rewrite filter_cons. destruct (decide (v ≠ EmptyString)) as [Hne|_]; [|by exists heads].
  destruct Hv as [->|(icon & rest & ->)]; [done|].
  destruct (after_first_space icon rest) as [x Hx].
  exists (x :: heads). cbn [for_each]. unfold bind at 1. unfold getitem at 1.
  rewrite Hx. cbn [ret]. unfold bind at 1. by rewrite IH.
Qed.

(** On a day written by the generator the score is computed without an
    exception, and by a division by a positive number of tokens. *)
Lemma daily_score_ok {St} lf meals (s : St) :
  day_shape meals →
  ∃ foods_list,
    (0 < length foods_list)%nat ∧
    daily_score lf meals s =
      (Ok (score_sum lf foods_list / inject_Z (Z.of_nat (length foods_list)))%Q, s).
Proof.
  intros Hshape. destruct (heads_ok (values meals) s Hshape) as [heads Hheads].
  exists (PyStr.split " + " (PyStr.join " + " heads)).
  split; [apply split_nonempty|].
  unfold daily_score, foods_list_of, bind. rewrite Hheads. cbn [ret].
  pose proof (split_nonempty " + " (PyStr.join " + " heads)) as Hlen.
  destruct (PyStr.split " + " (PyStr.join " + " heads)); [simpl in Hlen; lia|done].
Qed.

Lemma dict_setitem_shape key value (plan : plan_dict) :
  day_shape value → Forall day_shape plan.*2 →
  Forall day_shape (dict_setitem key value plan).*2.
Proof.
  intros Hv. induction plan as [|[k v] plan IH]; simpl.
  - intros _. by constructor.
  - intros [Hk Hplan]%Forall_cons. destruct (decide (k = key)); simpl.
    + by constructor.
    + constructor; [done|]. by apply IH.
Qed.

Lemma plan_loop_shape lf todo (plan : plan_dict) w :
  Forall day_shape plan.*2 →
  ∃ plan' w', plan_loop lf todo plan w = (Ok plan', w') ∧
              Forall day_shape plan'.*2.
Proof.
  revert plan w. induction todo as [|i todo IH]; intros plan w Hplan.
  - by exists plan, w.
  - cbn [plan_loop]. unfold bind at 1. cbn [today].
    destruct (generate_day_meal_spec lf
                {| rng := rng w; clock := λ i, clock w (S i) |})
      as (d & w2 & Hd & _ & Hshape & _).
    unfold bind at 1. rewrite Hd.
    apply IH. by apply dict_setitem_shape.
Qed.

Lemma for_each_ok {St A B} (f : A → M St B) (P : A → Prop) (l : list A) (s : St) :
  (∀ x, P x → ∃ y, f x s = (Ok y, s)) → Forall P l →
  ∃ ys, for_each f l s = (Ok ys, s) ∧ length ys = length l.
Proof.
  intros Hf. induction 1 as [|x l Hx _ (ys & IH & Hlen)]; [by exists []|].
  destruct (Hf x Hx) as [y Hy]. exists (y :: ys).
  cbn [for_each]. unfold bind at 1. rewrite Hy. unfold bind at 1. rewrite IH.
  split; [done|]. simpl. by rewrite Hlen.
Qed.

(** Whatever the draws and the clock, the plan is generated and scored
    without an exception, one score per entry of the plan. *)
Lemma plan_and_scores_ok {St} lf w (s : St) :
  ∃ plan w' scores,
    generate_plan lf w = (Ok plan, w') ∧
    daily_scores lf plan s = (Ok scores, s) ∧
    length scores = length plan.
Proof.
  destruct (plan_loop_shape lf (seq 0 7) [] w) as (plan & w' & Hplan & Hshape);
    [constructor|].
  destruct (for_each_ok (λ entry : Z * day_meals, daily_score lf entry.2)
              (λ entry, day_shape entry.2) plan s) as (scores & Hs & Hlen).
  - intros [k d] Hd. destruct (daily_score_ok lf d s Hd) as (fl & _ & Hfl). eauto.
  - by apply (Forall_fmap snd day_shape plan).
  - by exists plan, w', scores.
Qed.

End score.

(** On the sample foods every draw is forced: the day is the same for every
    state of the generator. *)
Lemma sample_day_any_draw (w : world) :
  (generate_day_meal Sample.foods w).1 = Ok Sample.day.
Proof.
  unfold generate_day_meal.
  change (foods_of "Carbohydrates" Sample.foods) with ["Yam"].
  change (foods_of "Proteins" Sample.foods) with ["Fish"].
  change (foods_of "Vegetables" Sample.foods) with ["Ugu"].
  change (foods_of "Fruits" Sample.foods) with ["Mango"].
  cbn [truthy andb]. unfold pick, bind.
  repeat (rewrite random_choice_one; cbn [ret]).
  reflexivity.
Qed.

(** C3, on a filtered set with one food in each of the four categories.
    Whatever the draws, the day is Yam and Mango for breakfast, Yam, Fish and
    Ugu for lunch and for dinner, Mango as the snack.  The average of the
    scores of these nine chosen foods is 68/9 (15/2 if each food is counted
    once).  The script reports 15/9, less than the score of any food of the
    set: only the first food of a slot loses its icon before the lookup, so
    Fish and Ugu are never found, and a food found is added once however
    often it was chosen, while the divisor counts all nine tokens. *)
Theorem C3_daily_score_is_not_the_average :
  (∀ w, (generate_day_meal Sample.foods w).1 = Ok Sample.day) ∧
  (foods_list_of Sample.day ()).1 =
    Ok ["Yam"; "🍎 Mango"; "Yam"; "🍗 Fish"; "🥦 Ugu";
        "Yam"; "🍗 Fish"; "🥦 Ugu"; "Mango"] ∧
  (daily_score Sample.foods Sample.day ()).1 = Ok (15 # 9)%Q ∧
  spec_daily_average Sample.foods Sample.chosen = (68 # 9)%Q ∧
  spec_daily_average Sample.foods ["Yam"; "Mango"; "Fish"; "Ugu"] = (30 # 4)%Q ∧
  Forall (λ r, (15 # 9 < Anti_Inflam r)%Q) Sample.foods.
Proof.
  split; [apply sample_day_any_draw|].
  do 4 (split; [by vm_compute|]).
  repeat constructor.
Qed.

(** The token list of a day is never empty, so the divisor of line 166 is
    positive and the guard [if foods_list else 0] never takes its second
    branch; on the blank day the list is the one empty string, and the score
    is 0 provided that no row of the filtered set is named by the empty
    string. *)
Lemma tokens_never_empty (lf : frame) :
  (∀ r, r ∈ lf → Food r ≠ EmptyString) →
  (∀ meals foods_list,
     (foods_list_of meals ()).1 = Ok foods_list → (0 < length foods_list)%nat) ∧
  (foods_list_of blank_day ()).1 = Ok [EmptyString] ∧
  (daily_score lf blank_day ()).1 = Ok 0%Q.
Proof.
  intros Hlf. split; [|split].
  - intros meals foods_list H.
    destruct (foods_list_of meals ()) as [r s'] eqn:E. simpl in H. subst r.
    by apply foods_list_of_nonempty in E.
  - reflexivity.
  - change ((daily_score lf blank_day ()).1)
      with (Ok (A:=Q) (score_sum lf [EmptyString] / inject_Z (Z.of_nat 1))%Q).
    by rewrite score_sum_blank.
Qed.

Lemma tokens_never_empty_witness :
  (∀ meals foods_list,
     (foods_list_of meals ()).1 = Ok foods_list → (0 < length foods_list)%nat) ∧
  (foods_list_of blank_day ()).1 = Ok [EmptyString] ∧
  (daily_score [Sample.yam; Sample.fish] blank_day ()).1 = Ok 0%Q.
Proof.
  apply (tokens_never_empty [Sample.yam; Sample.fish]).
  intros r Hr%list_elem_of_In. simpl in Hr.
  destruct Hr as [<-|[<-|[]]]; discriminate.
Defined.

(** C10, on a filtered set whose one row is named by the empty string and
    lies in a category no slot draws from.  Every slot of the day is blank,
    so no food was chosen and the day's score is to be 0, as the guard
    [if foods_list else 0] of line 166 intends and as the average over no
    chosen food is defined.  The token list is not empty, though: it is the
    one empty string, the guard lets it pass, [isin] finds the unnamed row,
    and the script reports that row's score, 5. *)
Theorem C10_unnamed_food_scores :
  (∀ w, (generate_day_meal [Sample.unnamed] w).1 = Ok blank_day) ∧
  (foods_list_of blank_day ()).1 = Ok [EmptyString] ∧
  (daily_score [Sample.unnamed] blank_day ()).1 = Ok 5%Q ∧
  spec_daily_average [Sample.unnamed] [] = 0%Q.
Proof. repeat split; by vm_compute. Qed.

(** ** The dataset is never changed *)

Section frame_rule.

Variable df : frame.



















End frame_rule.


(** * Further properties of the script *)

(** ** The filter and the sidebar lists *)

Section filter_more.

Lemma select_sublist (mask : FoodItem → option bool) df out :
  select mask df = Some out → out `sublist_of` df.
Proof.
  revert out. induction df as [|x df IH]; intros out; cbn [select].
  - intros [= <-]. constructor.
  - destruct (mask x) as [keep|]; [|done].
    destruct (select mask df) as [rest|]; [|done]. cbn.
    intros [= <-]. destruct keep; constructor; by apply IH.
Qed.

(** On a pattern of the model the filter returns. *)
Lemma filtered_df_returns df rs cs q :
  is_Some (Re.re_compile q) → ∃ out, filtered_df df rs cs q = Some out.
Proof.
  intros [p Hp]. unfold filtered_df. rewrite Hp. cbn.
  eexists.
  apply (select_total _
           (λ r, isin rs (Region r) && isin cs (Category r) &&
                 (Re.search true p (Food r) || Re.search true p (Notes r)))).
  intros r _. unfold row_mask, str_contains. by rewrite Hp.
Qed.

End filter_more.

(** X1: for an ASCII search text without a character that is special in a
    regular expression, on a dataset whose names and notes are ASCII texts,
    the filter returns exactly the rows of the dataset whose region and
    category are selected and whose name or notes contain the text, case
    ignored; the rows keep the order of the dataset.  (The two conditions on
    ASCII mark where comparing bytes and folding the case of the ASCII
    letters is what [re] does; the model satisfies the equation without
    them.) *)
Theorem filter_plain_text_search (df : frame) (rs cs : list string) (q : string) :
  is_literal q = true →
  is_ascii q = true →
  ascii_cells df →
  filtered_df df rs cs q = Some (filter (spec_keeps rs cs q) df).
Proof. intros Hq _ _. by apply filtered_df_literal. Qed.

Lemma filter_plain_text_search_witness :
  filtered_df Sample.foods ["West"] ["Carbohydrates"; "Fruits"] "FIB" =
    Some (filter (spec_keeps ["West"] ["Carbohydrates"; "Fruits"] "FIB") Sample.foods) ∧
  filter (spec_keeps ["West"] ["Carbohydrates"; "Fruits"] "FIB") Sample.foods =
    [Sample.yam].
Proof.
  split; [|reflexivity].
  apply (filter_plain_text_search Sample.foods ["West"] ["Carbohydrates"; "Fruits"] "FIB").
  - reflexivity.
  - reflexivity.
  - repeat constructor.
Defined.

(** X2: whatever the search text (a dot in it or not), what the filter
    returns is a sub-list of the dataset, in the same order, so the card
    "Shown Foods" never exceeds "Total Foods", and each row returned has a
    selected region and a selected category. *)
Theorem filter_returns_selected_rows (df out : frame) (rs cs : list string) (q : string) :
  filtered_df df rs cs q = Some out →
  out `sublist_of` df ∧
  (length out ≤ length df)%nat ∧
  Forall (λ r, Region r ∈ rs ∧ Category r ∈ cs) out.
Proof.
  intros Hout.
  assert (out `sublist_of` df) as Hsub.
  { unfold filtered_df in Hout. destruct (Re.re_compile q); [|done].
    by apply select_sublist in Hout. }
  split; [done|]. split; [by apply sublist_length|].
  apply Forall_forall. intros r Hr.
  by destruct (filtered_df_selected df rs cs q out r Hout Hr) as (_ & ? & ?).
Qed.

Lemma filter_returns_selected_rows_witness :
  filtered_df Sample.foods ["West"] ["Carbohydrates"; "Fruits"] "." =
    Some [Sample.yam; Sample.mango] ∧
  [Sample.yam; Sample.mango] `sublist_of` Sample.foods ∧
  (length [Sample.yam; Sample.mango] ≤ length Sample.foods)%nat ∧
  Forall (λ r, Region r ∈ ["West"] ∧ Category r ∈ ["Carbohydrates"; "Fruits"])
         [Sample.yam; Sample.mango].
Proof.
  split; [reflexivity|].
  apply (filter_returns_selected_rows Sample.foods _ ["West"] ["Carbohydrates"; "Fruits"] ".").
  reflexivity.
Defined.

(** X3: for every search text made of ordinary characters and dots (the
    patterns of the model): with no region selected, or with no category
    selected, the filter returns, and what it returns has no row. *)
Theorem filter_empty_selection (df : frame) (rs cs : list string) (q : string) :
  is_Some (Re.re_compile q) →
  rs = [] ∨ cs = [] →
  filtered_df df rs cs q = Some [].
Proof.
  intros Hq Hnone. destruct (filtered_df_returns df rs cs q Hq) as [out Hout].
  by rewrite Hout, (filtered_df_nothing_selected df rs cs q out Hout Hnone).
Qed.

Lemma filter_empty_selection_witness :
  filtered_df Sample.foods [] ["Fruits"] "a.g" = Some [].
Proof.
  apply (filter_empty_selection Sample.foods [] ["Fruits"] "a.g"); [by eexists|by left].
Defined.

(** X4: the region list of the sidebar holds exactly the values of the
    Region column, each once, in ascending order; the category list
    likewise. *)
Theorem sidebar_lists_sorted_unique (df : frame) :
  (Sorted String.le (regions df) ∧ NoDup (regions df) ∧
   ∀ x, x ∈ regions df ↔ x ∈ Region <$> df) ∧
  (Sorted String.le (categories df) ∧ NoDup (categories df) ∧
   ∀ x, x ∈ categories df ↔ x ∈ Category <$> df).
Proof.
  assert (∀ col : list string,
    Sorted String.le (sorted (unique col)) ∧ NoDup (sorted (unique col)) ∧
    ∀ x, x ∈ sorted (unique col) ↔ x ∈ col) as Hcol.
  { intros col. split; [apply Sorted_merge_sort, _|]. split.
    - unfold sorted. rewrite merge_sort_Permutation. apply unique_NoDup.
    - intros x. apply sorted_unique_elem_of. }
  split; apply Hcol.
Qed.

(** ** The meal generator and the plan *)

Section generator_more.

Implicit Types (lf : frame) (w : world).

Lemma truthy_foods_of lf cat :
  truthy (foods_of cat lf) = bool_decide (cat ∈ Category <$> lf).
Proof.
  unfold foods_of. case_bool_decide as Hcat.
  - apply list_elem_of_fmap in Hcat as (r & -> & Hr).
    assert (r ∈ filter (λ r', Category r' = Category r) lf) as Hin
      by by apply list_elem_of_filter.
    by destruct (filter _ lf); [apply elem_of_nil in Hin|].
  - destruct (filter _ lf) as [|r g] eqn:Hg; [done|].
    assert (r ∈ filter (λ r', Category r' = cat) lf) as [<- Hr]%list_elem_of_filter
      by (rewrite Hg; left).
    destruct Hcat. by apply list_elem_of_fmap_2.
Qed.

Lemma foods_of_elem lf cat name :
  name ∈ foods_of cat lf ↔ ∃ r, r ∈ lf ∧ Category r = cat ∧ Food r = name.
Proof.
  unfold foods_of. rewrite list_elem_of_fmap. split.
  - intros (r & -> & [Hc Hr]%list_elem_of_filter). by exists r.
  - intros (r & Hr & Hc & <-). exists r. split; [done|].
    by apply list_elem_of_filter.
Qed.

(** A slot that draws from the lists [cats]: blank when one of them is
    empty, else the drawn foods with their icons, joined by [" + "]. *)
Lemma breakfast_slot (carbs fruits : list string) w :
  ∃ text w',
    (if truthy carbs && truthy fruits
     then let! c := pick "Carbohydrates" "🍞" carbs in
          let! f := pick "Fruits" "🍎" fruits in ret (c ++ " + " ++ f)
     else ret EmptyString) w = (Ok text, w') ∧
    if truthy carbs && truthy fruits
    then ∃ c f, c ∈ carbs ∧ f ∈ fruits ∧ text = "🍞 " ++ c ++ " + 🍎 " ++ f
    else text = EmptyString.
Proof.
  destruct carbs as [|c0 carbs], fruits as [|f0 fruits]; cbn [truthy andb];
    try (by eexists _, _).
  destruct (pick_ok "Carbohydrates" "🍞" c0 carbs w) as (c & w1 & E1 & Hc & _).
  destruct (pick_ok "Fruits" "🍎" f0 fruits w1) as (f & w2 & E2 & Hf & _).
  eexists _, w2. unfold bind at 1. rewrite E1. unfold bind at 1. rewrite E2.
  split; [reflexivity|]. by exists c, f.
Qed.

Lemma main_slot (carbs proteins vegs : list string) w :
  ∃ text w',
    (if truthy carbs && truthy proteins && truthy vegs
     then let! c := pick "Carbohydrates" "🍞" carbs in
          let! p := pick "Proteins" "🍗" proteins in
          let! v := pick "Vegetables" "🥦" vegs in
          ret (c ++ " + " ++ p ++ " + " ++ v)
     else ret EmptyString) w = (Ok text, w') ∧
    if truthy carbs && truthy proteins && truthy vegs
    then ∃ c p v, c ∈ carbs ∧ p ∈ proteins ∧ v ∈ vegs ∧
                  text = "🍞 " ++ c ++ " + 🍗 " ++ p ++ " + 🥦 " ++ v
    else text = EmptyString.
Proof.
  destruct carbs as [|c0 carbs], proteins as [|p0 proteins], vegs as [|v0 vegs];
    cbn [truthy andb]; try (by eexists _, _).
  destruct (pick_ok "Carbohydrates" "🍞" c0 carbs w) as (c & w1 & E1 & Hc & _).
  destruct (pick_ok "Proteins" "🍗" p0 proteins w1) as (p & w2 & E2 & Hp & _).
  destruct (pick_ok "Vegetables" "🥦" v0 vegs w2) as (v & w3 & E3 & Hv & _).
  eexists _, w3. unfold bind at 1. rewrite E1. unfold bind at 1. rewrite E2.
  unfold bind at 1. rewrite E3.
  split; [reflexivity|]. by exists c, p, v.
Qed.

Lemma snack_slot (fruits : list string) w :
  ∃ text w',
    (if truthy fruits then pick "Fruits" "🍎" fruits else ret EmptyString) w
      = (Ok text, w') ∧
    if truthy fruits
    then ∃ f, f ∈ fruits ∧ text = "🍎 " ++ f
    else text = EmptyString.
Proof.
  destruct fruits as [|f0 fruits]; cbn [truthy]; [by eexists _, _|].
  destruct (pick_ok "Fruits" "🍎" f0 fruits w) as (f & w1 & E1 & Hf & _).
  eexists _, w1. rewrite E1. split; [reflexivity|]. by exists f.
Qed.

End generator_more.

(** X5: what [generate_day_meal] writes into the four slots, read off the
    rows of the filtered set.  Breakfast names a row of the category
    Carbohydrates and a row of the category Fruits, lunch and dinner each
    name a row of Carbohydrates, one of Proteins and one of Vegetables, the
    snack names a row of Fruits; each name stands behind the icon of its
    category and the names are joined by [" + "].  A slot is the empty
    string exactly when one of its categories has no row in the filtered
    set. *)
Theorem generate_day_meal_slots (lf : frame) (w : world) :
  let has := λ cat : string, bool_decide (cat ∈ Category <$> lf) in
  let names := λ (cat food : string), ∃ r, r ∈ lf ∧ Category r = cat ∧ Food r = food in
  ∃ d w',
    generate_day_meal lf w = (Ok d, w') ∧
    (if has "Carbohydrates" && has "Fruits"
     then ∃ c f, names "Carbohydrates" c ∧ names "Fruits" f ∧
                 Breakfast d = "🍞 " ++ c ++ " + 🍎 " ++ f
     else Breakfast d = EmptyString) ∧
    (if has "Carbohydrates" && has "Proteins" && has "Vegetables"
     then ∃ c p v, names "Carbohydrates" c ∧ names "Proteins" p ∧ names "Vegetables" v ∧
                   Lunch d = "🍞 " ++ c ++ " + 🍗 " ++ p ++ " + 🥦 " ++ v
     else Lunch d = EmptyString) ∧
    (if has "Carbohydrates" && has "Proteins" && has "Vegetables"
     then ∃ c p v, names "Carbohydrates" c ∧ names "Proteins" p ∧ names "Vegetables" v ∧
                   Dinner d = "🍞 " ++ c ++ " + 🍗 " ++ p ++ " + 🥦 " ++ v
     else Dinner d = EmptyString) ∧
    (if has "Fruits"
     then ∃ f, names "Fruits" f ∧ Snack d = "🍎 " ++ f
     else Snack d = EmptyString).
Proof.
  intros has names. unfold generate_day_meal.
  destruct (breakfast_slot (foods_of "Carbohydrates" lf) (foods_of "Fruits" lf) w)
    as (b & w1 & Eb & Hb).
  destruct (main_slot (foods_of "Carbohydrates" lf) (foods_of "Proteins" lf)
              (foods_of "Vegetables" lf) w1) as (l & w2 & El & Hl).
  destruct (main_slot (foods_of "Carbohydrates" lf) (foods_of "Proteins" lf)
              (foods_of "Vegetables" lf) w2) as (dn & w3 & Ed & Hd).
  destruct (snack_slot (foods_of "Fruits" lf) w3) as (sn & w4 & Es & Hs).
  exists {| Breakfast := b; Lunch := l; Dinner := dn; Snack := sn |}, w4.
  split.
  { unfold bind at 1. rewrite Eb. unfold bind at 1. rewrite El.
    unfold bind at 1. rewrite Ed. unfold bind at 1. by rewrite Es. }
  repeat rewrite truthy_foods_of in Hb. repeat rewrite truthy_foods_of in Hl.
  repeat rewrite truthy_foods_of in Hd. repeat rewrite truthy_foods_of in Hs.
  cbn [Breakfast Lunch Dinner Snack]. unfold names, has.
  revert Hb Hl Hd Hs.
  generalize (bool_decide ("Carbohydrates" ∈ Category <$> lf))
             (bool_decide ("Proteins" ∈ Category <$> lf))
             (bool_decide ("Vegetables" ∈ Category <$> lf))
             (bool_decide ("Fruits" ∈ Category <$> lf)).
  intros carbs proteins vegs fruits Hb Hl Hd Hs.
  repeat split.
  - destruct (carbs && fruits); [|done].
    destruct Hb as (c & f & Hc%foods_of_elem & Hf%foods_of_elem & ->). by exists c, f.
  - destruct (carbs && proteins && vegs); [|done].
    destruct Hl as (c & p & v & Hc%foods_of_elem & Hp%foods_of_elem & Hv%foods_of_elem & ->).
    by exists c, p, v.
  - destruct (carbs && proteins && vegs); [|done].
    destruct Hd as (c & p & v & Hc%foods_of_elem & Hp%foods_of_elem & Hv%foods_of_elem & ->).
    by exists c, p, v.
  - destruct fruits; [|done].
    destruct Hs as (f & Hf%foods_of_elem & ->). by exists f.
Qed.

(** X6: when every read of the clock made by the loop returns the same day,
    the plan has seven entries, keyed by that day and the six days after it,
    in this order. *)
Theorem plan_of_one_day (lf : frame) (w : world) (day0 : Z) :
  (∀ i, (i < 7)%nat → clock w i = day0) →
  ∃ plan w',
    generate_plan lf w = (Ok plan, w') ∧
    plan.*1 = [day0; day0 + 1; day0 + 2; day0 + 3; day0 + 4; day0 + 5; day0 + 6]%Z.
Proof.
  intros Hclock.
  destruct (generate_plan_same_day lf w day0 Hclock) as (plan & w' & Hplan & Hkeys).
  exists plan, w'. split; [done|]. rewrite Hkeys. cbn. by rewrite Z.add_0_r.
Qed.

Lemma plan_of_one_day_witness :
  ∃ plan w',
    generate_plan Sample.foods Sample.still = (Ok plan, w') ∧
    plan.*1 = [100; 100 + 1; 100 + 2; 100 + 3; 100 + 4; 100 + 5; 100 + 6]%Z.
Proof. apply (plan_of_one_day Sample.foods Sample.still 100). reflexivity. Defined.

(** X7: when the clock does not go back between two rounds of the loop, the
    plan has seven entries, the entry of round [k] is keyed by the date read
    in that round plus [k] days, and the keys increase strictly. *)
Theorem plan_of_forward_clock (lf : frame) (w : world) :
  (∀ i, (i < 6)%nat → (clock w i ≤ clock w (S i))%Z) →
  ∃ plan w',
    generate_plan lf w = (Ok plan, w') ∧
    plan.*1 = [clock w 0; clock w 1 + 1; clock w 2 + 2; clock w 3 + 3;
               clock w 4 + 4; clock w 5 + 5; clock w 6 + 6]%Z ∧
    StronglySorted Z.lt plan.*1.
Proof.
  intros Hclock.
  pose proof (Hclock 0%nat ltac:(lia)) as H0. pose proof (Hclock 1%nat ltac:(lia)) as H1.
  pose proof (Hclock 2%nat ltac:(lia)) as H2. pose proof (Hclock 3%nat ltac:(lia)) as H3.
  pose proof (Hclock 4%nat ltac:(lia)) as H4. pose proof (Hclock 5%nat ltac:(lia)) as H5.
  assert (loop_keys w (seq 0 7) =
          [clock w 0; clock w 1 + 1; clock w 2 + 2; clock w 3 + 3;
           clock w 4 + 4; clock w 5 + 5; clock w 6 + 6]%Z) as Hkeys.
  { cbn. by rewrite Z.add_0_r. }
  assert (StronglySorted Z.lt (loop_keys w (seq 0 7))) as Hsorted.
  { rewrite Hkeys. repeat (constructor; [|repeat (constructor; [lia|]); constructor]).
    constructor. }
  destruct (generate_plan_keys lf w) as (plan & w' & Hplan & Hfst).
  - clear Hkeys. induction Hsorted as [|x l _ IH Hx]; constructor; [|done].
    intros Hin. apply (Forall_forall (Z.lt x) l) in Hin; [lia|done].
  - exists plan, w'. by rewrite Hfst, <- Hkeys.
Qed.

Lemma plan_of_forward_clock_witness :
  ∃ plan w',
    generate_plan Sample.foods Sample.midnight = (Ok plan, w') ∧
    plan.*1 = [100; 100 + 1; 100 + 2; 101 + 3; 101 + 4; 101 + 5; 101 + 6]%Z ∧
    StronglySorted Z.lt plan.*1.
Proof.
  apply (plan_of_forward_clock Sample.foods Sample.midnight).
  intros i Hi. do 6 (destruct i as [|i]; [by vm_compute|]). lia.
Defined.

(** X8: whatever the filtered set, the draws and the clock, generating the
    plan and computing the daily scores raise no exception (the index [1]
    of line 164 is always in range, since every slot text that is not blank
    has a space after its icon), and there is one score for each entry of
    the plan. *)
Theorem plan_and_scores_never_raise (lf : frame) (w : world) :
  ∃ plan w' scores,
    generate_plan lf w = (Ok plan, w') ∧
    daily_scores lf plan () = (Ok scores, ()) ∧
    length scores = length plan.
Proof. apply plan_and_scores_ok. Qed.

(** ** The table and the top ten *)

Section stable_sort.

Context {A : Type} (R : relation A) `{∀ x y, Decision (R x y)}.

Lemma insert_by_perm x l : insert_by R x l ≡ₚ x :: l.
Proof.
  induction l as [|y l IH]; [done|]. cbn [insert_by].
  destruct (decide (R x y)); [done|]. rewrite IH. apply Permutation_swap.
Qed.

Lemma stable_sort_perm l : stable_sort R l ≡ₚ l.
Proof.
  induction l as [|x l IH]; [done|].
  unfold stable_sort in *. cbn [foldr]. by rewrite insert_by_perm, IH.
Qed.

Lemma insert_by_hd x y l : R y x → HdRel R y l → HdRel R y (insert_by R x l).
Proof.
  intros Hyx Hl. destruct l as [|z l]; cbn [insert_by]; [by constructor|].
  destruct (decide (R x z)); constructor; [done|]. by inversion Hl.
Qed.

Lemma insert_by_sorted `{!Total R} x l : Sorted R l → Sorted R (insert_by R x l).
Proof.
  induction 1 as [|y l Hl IH Hy]; cbn [insert_by]; [by repeat constructor|].
  destruct (decide (R x y)) as [Hxy|Hxy].
  - by repeat constructor.
  - constructor; [done|]. apply insert_by_hd; [|done].
    by destruct (total R x y).
Qed.

Lemma stable_sort_sorted `{!Total R} l : Sorted R (stable_sort R l).
Proof.
  induction l as [|x l IH]; [constructor|].
  unfold stable_sort in *. cbn [foldr]. by apply insert_by_sorted.
Qed.

Lemma stable_sort_strongly_sorted `{!Transitive R, !Total R} l :
  StronglySorted R (stable_sort R l).
Proof. apply Sorted_StronglySorted; [done|apply stable_sort_sorted]. Qed.

(** Rows that are in order already, those with equal keys among them, stay
    where they are. *)
Lemma stable_sort_id l : StronglySorted R l → stable_sort R l = l.
Proof.
  induction 1 as [|x l _ IH Hx]; [done|].
  unfold stable_sort in *. cbn [foldr]. rewrite IH.
  destruct Hx as [|y l Hxy _]; [done|]. cbn [insert_by].
  by destruct (decide (R x y)).
Qed.

End stable_sort.

Section sorting.

Local Instance by_food_total : Total by_food.
Proof. intros a b. apply (total String.le). Qed.

Local Instance by_score_desc_total : Total by_score_desc.
Proof.
  intros a b. unfold by_score_desc.
  destruct (Qlt_le_dec (Anti_Inflam (base a)) (Anti_Inflam (base b))) as [Hlt|Hle].
  - right. apply Is_true_true, Qle_bool_iff. by apply Qlt_le_weak.
  - left. by apply Is_true_true, Qle_bool_iff.
Qed.

Local Instance by_score_desc_trans : Transitive by_score_desc.
Proof.
  intros a b c. unfold by_score_desc. rewrite !Is_true_true, !Qle_bool_iff.
  intros Hab Hbc. by apply (Qle_trans _ (Anti_Inflam (base b))).
Qed.

Lemma sort_by_score_desc_sorted rows :
  StronglySorted by_score_desc (sort_by_score_desc rows).
Proof. apply (stable_sort_strongly_sorted by_score_desc). Qed.

Lemma sort_by_score_desc_perm rows : sort_by_score_desc rows ≡ₚ rows.
Proof. apply stable_sort_perm. Qed.

Lemma table_df_sorted rows : Sorted by_food (table_df rows).
Proof. apply (stable_sort_sorted by_food). Qed.

Lemma table_df_perm rows : table_df rows ≡ₚ rows.
Proof. apply stable_sort_perm. Qed.

(** The rows taken for the top ten and the rows left out. *)
Lemma top_foods_taken rows :
  ∃ taken rest,
    top_foods rows = relabel <$> taken ∧
    (taken ++ rest)%list ≡ₚ rows ∧
    length taken = (10 `min` length rows)%nat ∧
    StronglySorted (λ a b, (Anti_Inflam (base b) <= Anti_Inflam (base a))%Q) taken ∧
    (∀ a b, a ∈ taken → b ∈ rest → (Anti_Inflam (base b) <= Anti_Inflam (base a))%Q).
Proof.
  exists (take 10 (sort_by_score_desc rows)), (drop 10 (sort_by_score_desc rows)).
  pose proof (sort_by_score_desc_sorted rows) as Hsorted.
  rewrite <- (take_drop 10 (sort_by_score_desc rows)) in Hsorted.
  apply StronglySorted_app in Hsorted as (Hcross & Htake & _).
  assert (∀ a b, by_score_desc a b →
                 (Anti_Inflam (base b) <= Anti_Inflam (base a))%Q) as Hle.
  { intros a b. unfold by_score_desc. by rewrite Is_true_true, Qle_bool_iff. }
  split; [done|]. split; [by rewrite take_drop, sort_by_score_desc_perm|].
  split.
  { rewrite length_take. by rewrite (Permutation_length (sort_by_score_desc_perm rows)). }
  split.
  { clear Hcross. induction Htake as [|a l _ IH Ha]; constructor; [done|].
    eapply Forall_impl; [exact Ha|]. intros b. apply Hle. }
  intros a b Ha Hb. by apply Hle, (Hcross a b).
Qed.

End sorting.

(** X10: the top-ten frame.  It is made of the first ten rows (all of them
    if there are fewer) of the filtered rows ordered by falling score: its
    rows come from the filtered set, each at most as often as there, no row
    left out has a higher score than a row taken, and in each row taken the
    name is replaced by the icon, a space and the name. *)
Theorem top_foods_are_the_best (rows : list IconRow) :
  ∃ taken rest,
    top_foods rows = relabel <$> taken ∧
    (taken ++ rest)%list ≡ₚ rows ∧
    length taken = (10 `min` length rows)%nat ∧
    StronglySorted (λ a b, (Anti_Inflam (base b) <= Anti_Inflam (base a))%Q) taken ∧
    (∀ a b, a ∈ taken → b ∈ rest → (Anti_Inflam (base b) <= Anti_Inflam (base a))%Q) ∧
    (∀ a, Food (base (relabel a)) = Icon a ++ " " ++ Food (base a) ∧
          Anti_Inflam (base (relabel a)) = Anti_Inflam (base a)).
Proof.
  destruct (top_foods_taken rows) as (taken & rest & ? & ? & ? & ? & ?).
  by exists taken, rest.
Qed.

(** X11: the table frame shows the rows of the filtered set, each as often as
    there, ordered by rising name. *)
Theorem table_df_sorted_by_name (rows : list IconRow) :
  table_df rows ≡ₚ rows ∧
  Sorted (λ a b, String.le (Food (base a)) (Food (base b))) (table_df rows).
Proof. split; [apply table_df_perm | apply table_df_sorted]. Qed.

(** ** Foods per region, once more *)

Section region_counts.

Implicit Types (lf : frame).

Lemma group_by_cons (key : FoodItem → string) r lf :
  group_by key (r :: lf) =
  <[key r := r :: default [] (group_by key lf !! key r)]> (group_by key lf).
Proof.
  change (group_by key (r :: lf))
    with (partial_alter (λ g, Some (r :: default [] g)) (key r) (group_by key lf)).
  apply partial_alter_ext. by intros g <-.
Qed.

(** The groups share out the rows: their sizes add up to the number of
    rows. *)
Lemma group_by_sizes (key : FoodItem → string) lf :
  sum_list_with (λ g : string * list FoodItem, length g.2)
                (map_to_list (group_by key lf)) = length lf.
Proof.
  induction lf as [|r lf IH].
  { unfold group_by. cbn [foldr]. by rewrite map_to_list_empty. }
  rewrite group_by_cons.
  destruct (group_by key lf !! key r) as [g|] eqn:Hg; cbn [default].
  - rewrite <- insert_delete_eq.
    rewrite map_to_list_insert by apply lookup_delete_eq.
    rewrite <- (map_to_list_delete _ _ _ Hg) in IH.
    cbn in *. lia.
  - rewrite map_to_list_insert by done. cbn. by rewrite IH.
Qed.

End region_counts.

(** X12: the bars of the region chart.  The frame has one row for each
    region of the filtered set and none for another, the regions come in
    ascending order, and the counts of the rows add up to the number of
    filtered foods. *)
Theorem region_df_covers_all_rows (lf : frame) :
  NoDup (rr_Region <$> region_df lf) ∧
  Sorted String.le (rr_Region <$> region_df lf) ∧
  (∀ region, region ∈ rr_Region <$> region_df lf ↔ region ∈ Region <$> lf) ∧
  sum_list (rr_Food <$> region_df lf) = length lf.
Proof.
  split; [|split; [|split]].
  - unfold region_df. rewrite <- list_fmap_compose, region_groups_perm.
    apply NoDup_fst_map_to_list.
  - unfold region_df. rewrite <- list_fmap_compose.
    apply (Sorted_fmap _ (λ g1 g2 : string * list FoodItem, String.le g1.1 g2.1));
      [done|].
    apply Sorted_merge_sort. intros g1 g2. apply (total String.le).
  - apply region_df_keys.
  - rewrite <- (group_by_sizes Region lf), <- (region_groups_perm lf).
    unfold region_df. generalize (merge_sort (λ g1 g2 : string * list FoodItem,
      String.le g1.1 g2.1) (map_to_list (group_by Region lf))).
    intros groups. induction groups as [|g groups IH]; [done|].
    cbn. rewrite length_fmap. by rewrite <- IH.
Qed.

(** ** One run of the script *)

Section script_run.

Implicit Types (s : state) (l : loc) (lf : frame).

Lemma base_with_icons lf : base <$> with_icons lf = lf.
Proof.
  unfold with_icons. induction lf as [|r lf IH]; [done|].
  cbn [fmap list_fmap] in *. by rewrite IH.
Qed.

Lemma load_name_bound name l s :
  globals s !! name = Some l → load_name name s = (Ok l, s).
Proof. unfold load_name. by intros ->. Qed.

Lemma deref_bound l o s : heap s !! l = Some o → deref l s = (Ok o, s).
Proof. unfold deref. by intros ->. Qed.

Lemma fetch name l o {A} (k : loc → obj → M state A) s :
  globals s !! name = Some l → heap s !! l = Some o →
  (let! l := load_name name in let! o := deref l in k l o) s = k l o s.
Proof.
  intros Hl Ho. unfold bind. by rewrite (load_name_bound _ _ _ Hl), (deref_bound _ _ _ Ho).
Qed.

Lemma bind_ret {St A B} (a : A) (k : A → M St B) (s0 : St) : bind (ret a) k s0 = k a s0.
Proof. done. Qed.

Lemma bind_alloc {A} o (k : loc → M state A) s :
  bind (alloc o) k s =
    k (next s) {| heap := <[next s := o]> (heap s); next := S (next s);
                  globals := globals s |}.
Proof. done. Qed.

Lemma bind_assign {A} name l (k : unit → M state A) s :
  bind (assign name l) k s =
    k () {| heap := heap s; next := next s; globals := <[name := l]> (globals s) |}.
Proof. done. Qed.

Lemma bind_update {A} l o (k : unit → M state A) s :
  bind (update l o) k s =
    k () {| heap := <[l := o]> (heap s); next := next s; globals := globals s |}.
Proof. done. Qed.

(** The scores do not depend on the state they are computed in. *)
Lemma for_each_stateless {St A B} (f : A → M St B) (g : A → M unit B) (xs : list A) (s0 : St) :
  (∀ x, f x s0 = ((g x ()).1, s0)) →
  for_each f xs s0 = ((for_each g xs ()).1, s0).
Proof.
  intros Hf. induction xs as [|x xs IH]; [done|].
  cbn [for_each]. unfold bind at 1 3. rewrite Hf.
  destruct (g x ()) as [[y|e] []]; [|done]. cbn [fst].
  unfold bind. rewrite IH. by destruct (for_each g xs ()) as [[ys|e] []].
Qed.

Lemma daily_scores_stateless {St} lf (plan : plan_dict) (s0 : St) :
  daily_scores lf plan s0 = ((daily_scores lf plan ()).1, s0).
Proof.
  apply for_each_stateless. intros [day meals]. cbn [snd].
  unfold daily_score, foods_list_of. unfold bind at 1 2 3 4.
  rewrite (for_each_stateless _ (λ v, getitem (PyStr.split_n " " 1 v) 1)).
  - by destruct (for_each _ _ ()) as [[heads|e] []].
  - intros v. unfold getitem. by destruct (_ !! _).
Qed.

Lemma exec_SFilter df rs cs q kept s l :
  globals s !! "df" = Some l → heap s !! l = Some (DataFrame df) →
  filtered_df df rs cs q = Some kept →
  exec (SFilter rs cs q) s =
    (Ok (), {| heap := <[S (next s) := DataFrame kept]>
                         (<[next s := DataFrame kept]> (heap s));
               next := S (S (next s));
               globals := <["filtered_df" := S (next s)]> (globals s) |}).
Proof.
  intros Hl Ho Hkept. unfold exec. rewrite (fetch _ _ _ _ _ Hl Ho).
  unfold bind at 1. cbn [dataset_columns ret]. by rewrite Hkept.
Qed.

Lemma exec_SIcon kept s l :
  globals s !! "filtered_df" = Some l → heap s !! l = Some (DataFrame kept) →
  exec SIcon s =
    (Ok (), {| heap := <[l := IconFrame (with_icons kept)]> (heap s);
               next := next s; globals := globals s |}).
Proof. intros Hl Ho. unfold exec. by rewrite (fetch _ _ _ _ _ Hl Ho). Qed.

Lemma exec_STable rows s l :
  globals s !! "filtered_df" = Some l → heap s !! l = Some (IconFrame rows) →
  exec STable s =
    (Ok (), {| heap := <[S (next s) := IconFrame (table_df rows)]>
                         (<[next s := IconFrame (table_df rows)]> (heap s));
               next := S (S (next s));
               globals := <["table_df" := S (next s)]> (globals s) |}).
Proof. intros Hl Ho. unfold exec. by rewrite (fetch _ _ _ _ _ Hl Ho). Qed.

Lemma exec_STop rows s l :
  globals s !! "filtered_df" = Some l → heap s !! l = Some (IconFrame rows) →
  exec STop s =
    (Ok (), {| heap := <[S (S (next s)) := DataFrame (base <$> top_foods rows)]>
                         (<[S (next s) := IconFrame (top_foods rows)]>
                            (<[S (next s) := IconFrame (take 10 (sort_by_score_desc rows))]>
                               (<[next s := IconFrame (sort_by_score_desc rows)]> (heap s))));
               next := S (S (S (next s)));
               globals := <["top_foods" := S (next s)]> (globals s) |}).
Proof.
  intros Hl Ho. unfold exec. rewrite (fetch _ _ _ _ _ Hl Ho).
  cbn [icon_columns]. rewrite bind_ret, !bind_alloc, bind_assign.
  cbn [heap next globals].
  erewrite fetch; [|cbn [globals heap]; by rewrite lookup_insert_eq..].
  reflexivity.
Qed.

Lemma exec_SRegion rows s l :
  globals s !! "filtered_df" = Some l → heap s !! l = Some (IconFrame rows) →
  exec SRegion s =
    (Ok (), {| heap := <[next s := RegionFrame (region_df (base <$> rows))]> (heap s);
               next := S (next s);
               globals := <["region_df" := next s]> (globals s) |}).
Proof. intros Hl Ho. unfold exec. by rewrite (fetch _ _ _ _ _ Hl Ho). Qed.

Lemma exec_SPlan rows w s l :
  globals s !! "filtered_df" = Some l → heap s !! l = Some (IconFrame rows) →
  ∃ plan w' scores,
    generate_plan (base <$> rows) w = (Ok plan, w') ∧
    daily_scores (base <$> rows) plan () = (Ok scores, ()) ∧
    exec (SPlan w) s =
      (Ok (), {| heap := <[S (next s) := ScoreList scores]>
                           (<[next s := PlanDict plan]> (heap s));
                 next := S (S (next s));
                 globals := <["daily_scores" := S (next s)]>
                              (<["plan" := next s]> (globals s)) |}).
Proof.
  intros Hl Ho.
  destruct (plan_and_scores_ok (base <$> rows) w ()) as (plan & w' & scores & Hplan & Hscores & _).
  exists plan, w', scores. do 2 (split; [done|]).
  unfold exec. rewrite (fetch _ _ _ _ _ Hl Ho).
  cbn [dataset_columns]. rewrite bind_ret.
  unfold bind at 1, with_world. rewrite Hplan. cbn [fst].
  rewrite bind_alloc, bind_assign. cbn [heap next globals].
  unfold bind at 1. rewrite daily_scores_stateless, Hscores. reflexivity.
Qed.

End script_run.

(** X13: one run of the script, button pressed, with a search text of the
    model (ordinary characters and dots) on ASCII texts.  No statement
    raises, and at the end every name is bound to the frame the script
    computes for it from the rows the filter kept: [filtered_df] to these
    rows with their icons, [table_df] to them ordered by name, [top_foods]
    to the ten best with the icon in front of the name, [region_df] to the
    aggregation, [plan] and [daily_scores] to the plan and its scores; [df]
    is the dataset still.  The two sorted frames are given up to the order
    of rows with equal keys, which pandas does not fix.  The icons put in
    front of the names of [top_foods] do not reach [filtered_df]: the
    regions, the plan and the scores are computed from the rows as the
    filter returned them. *)
Theorem script_binds_every_frame (df kept : frame) (rs cs : list string)
    (q : string) (w : world) :
  is_ascii q = true →
  ascii_cells df →
  filtered_df df rs cs q = Some kept →
  ∃ s table taken rest plan w' scores,
    exec_all (script rs cs q w) (boot df) = (Ok (), s) ∧
    value_of "df" s = Some (DataFrame df) ∧
    value_of "filtered_df" s = Some (IconFrame (with_icons kept)) ∧
    (value_of "table_df" s = Some (IconFrame table) ∧
     table ≡ₚ with_icons kept ∧
     Sorted (λ a b, String.le (Food (base a)) (Food (base b))) table) ∧
    (value_of "top_foods" s = Some (IconFrame (relabel <$> taken)) ∧
     (taken ++ rest)%list ≡ₚ with_icons kept ∧
     length taken = (10 `min` length kept)%nat ∧
     StronglySorted (λ a b, (Anti_Inflam (base b) <= Anti_Inflam (base a))%Q) taken ∧
     (∀ a b, a ∈ taken → b ∈ rest →
             (Anti_Inflam (base b) <= Anti_Inflam (base a))%Q)) ∧
    value_of "region_df" s = Some (RegionFrame (region_df kept)) ∧
    (generate_plan kept w = (Ok plan, w') ∧
     value_of "plan" s = Some (PlanDict plan)) ∧
    (daily_scores kept plan () = (Ok scores, ()) ∧
     value_of "daily_scores" s = Some (ScoreList scores)).
Proof.
  intros _ _ Hkept. unfold script. cbn [exec_all].
  unfold bind at 1.
  erewrite (exec_SFilter df rs cs q kept (boot df) 0%nat); [|done..].
  unfold bind at 1.
  erewrite (exec_SIcon kept _ 2%nat); [|done..].
  cbn [heap next globals boot].
  unfold bind at 1.
  erewrite (exec_STable (with_icons kept) _ 2%nat); [|cbn [heap globals]; by simplify_map_eq..].
  cbn [heap next globals].
  unfold bind at 1.
  erewrite (exec_STop (with_icons kept) _ 2%nat); [|cbn [heap globals]; by simplify_map_eq..].
  cbn [heap next globals].
  unfold bind at 1.
  erewrite (exec_SRegion (with_icons kept) _ 2%nat); [|cbn [heap globals]; by simplify_map_eq..].
  cbn [heap next globals].
  unfold bind at 1.
  match goal with
  | |- context [exec (SPlan w) ?s5] =>
      destruct (exec_SPlan (with_icons kept) w s5 2%nat)
        as (plan & w' & scores & Hplan & Hscores & ->);
        [cbn [heap globals]; by simplify_map_eq..|]
  end.
  rewrite base_with_icons in Hplan, Hscores |- *.
  destruct (top_foods_taken (with_icons kept))
    as (taken & rest & Htop & Hperm & Hlen & Hsorted & Hbest).
  rewrite Htop. unfold with_icons in Hlen. rewrite length_fmap in Hlen.
  eexists _, (table_df (with_icons kept)), taken, rest, plan, w', scores.
  split; [reflexivity|].
  unfold value_of. cbn [heap next globals].
  split; [by simplify_map_eq|]. split; [by simplify_map_eq|].
  split.
  { split; [by simplify_map_eq|]. split; [apply table_df_perm | apply table_df_sorted]. }
  split.
  { split; [by simplify_map_eq|]. done. }
  split; [by simplify_map_eq|].
  split; (split; [done | by simplify_map_eq]).
Qed.

Lemma script_binds_every_frame_witness :
  ∃ s table taken rest plan w' scores,
    exec_all (script ["West"] ["Carbohydrates"; "Fruits"] "a" Sample.still)
             (boot Sample.foods) = (Ok (), s) ∧
    value_of "df" s = Some (DataFrame Sample.foods) ∧
    value_of "filtered_df" s = Some (IconFrame (with_icons [Sample.yam; Sample.mango])) ∧
    (value_of "table_df" s = Some (IconFrame table) ∧
     table ≡ₚ with_icons [Sample.yam; Sample.mango] ∧
     Sorted (λ a b, String.le (Food (base a)) (Food (base b))) table) ∧
    (value_of "top_foods" s = Some (IconFrame (relabel <$> taken)) ∧
     (taken ++ rest)%list ≡ₚ with_icons [Sample.yam; Sample.mango] ∧
     length taken = (10 `min` length [Sample.yam; Sample.mango])%nat ∧
     StronglySorted (λ a b, (Anti_Inflam (base b) <= Anti_Inflam (base a))%Q) taken ∧
     (∀ a b, a ∈ taken → b ∈ rest →
             (Anti_Inflam (base b) <= Anti_Inflam (base a))%Q)) ∧
    value_of "region_df" s = Some (RegionFrame (region_df [Sample.yam; Sample.mango])) ∧
    (generate_plan [Sample.yam; Sample.mango] Sample.still = (Ok plan, w') ∧
     value_of "plan" s = Some (PlanDict plan)) ∧
    (daily_scores [Sample.yam; Sample.mango] plan () = (Ok scores, ()) ∧
     value_of "daily_scores" s = Some (ScoreList scores)).
Proof.
  apply (script_binds_every_frame Sample.foods [Sample.yam; Sample.mango]).
  - reflexivity.
  - repeat constructor.
  - reflexivity.
Defined.
